(** * A shallow embedding of the blog application of [main.py]

    The program is a Flask application: three SQLAlchemy tables
    ([users], [blog_posts], [comments]), Flask-Login sessions and a
    handful of route handlers.  The embedding keeps the program's shape:

    - a table is the list of its rows, in insertion order;
    - a handler is a function of the database and of the session cookie
      that either returns a response together with the new database and
      session, or raises;
    - an exception that no handler catches ends the request: Flask turns
      an [HTTPException] into its status code and any other exception
      into status 500; the database session is rolled back.

    What the frameworks do (and [main.py] relies on) is written out where
    it is used, next to the source line it belongs to. *)

From Stdlib Require Import ZArith Arith List Ascii String Bool Lia.
From Stdlib Require Import DecimalString DecimalNat.
Import ListNotations.
Local Open Scope string_scope.
Local Open Scope Z_scope.

(** ** Exceptions *)

(** The exceptions a request of this program can end with. *)
Inductive exception : Type :=
| HTTPException (code : Z)              (* [abort(code)], [get_or_404] *)
| AttributeError (obj attr : string)    (* attribute lookup on an object *)
| IntegrityError (constraint : string)  (* a UNIQUE constraint at a flush *)
| OverflowError.                        (* an integer SQLite cannot bind *)

Inductive raises (A : Type) : Type :=
| Return (a : A)
| Raise (e : exception).
Arguments Return {A} a.
Arguments Raise {A} e.

Definition bind {A B : Type} (m : raises A) (k : A -> raises B) : raises B :=
  match m with
  | Return a => k a
  | Raise e => Raise e
  end.

Notation "x <- m ;; k" := (bind m (fun x => k))
  (at level 61, m at next level, right associativity).
Notation "' p <- m ;; k" := (bind m (fun x => match x with p => k end))
  (at level 61, p pattern, m at next level, right associativity).

(** ** The tables *)

Module User.
(** [class User(UserMixin, database.Model)], table [users]. *)
Record t : Type := Build {
  id : Z;
  email : string;
  password : string;
  name : string
}.
End User.

Module BlogPost.
(** [class BlogPost(database.Model)], table [blog_posts].  [author_id]
    is a nullable foreign key to [users.id]. *)
Record t : Type := Build {
  id : Z;
  author_id : option Z;
  title : string;
  subtitle : string;
  date : string;
  body : string;
  img_url : string
}.
End BlogPost.

Module Comment.
(** [class Comment(database.Model)], table [comments].  Both foreign
    keys are nullable columns. *)
Record t : Type := Build {
  id : Z;
  text : string;
  author_id : option Z;
  post_id : option Z
}.

Definition set_post_id (c : t) (p : option Z) : t :=
  {| id := id c; text := text c; author_id := author_id c; post_id := p |}.
End Comment.

Record Database : Type := {
  users : list User.t;
  blog_posts : list BlogPost.t;
  comments : list Comment.t
}.

(** [database.create_all()] on a fresh database file. *)
Definition create_all : Database :=
  {| users := []; blog_posts := []; comments := [] |}.

(** The primary keys are [Integer, primary_key=True]: on the default
    database ([sqlite:///posts.db]) a new row gets the largest id of the
    table plus one, and 1 in an empty table. *)
Definition next_rowid (ids : list Z) : Z := fold_right Z.max 0 ids + 1.

(** The query behind [database.get_or_404(Model, key)]: the row with
    that primary key, or [abort(404)] when the SELECT finds none. *)
Definition select_or_404 {A : Type} (pk : A -> Z) (table : list A) (key : Z)
  : raises A :=
  match find (fun r => pk r =? key) table with
  | Some r => Return r
  | None => Raise (HTTPException 404)
  end.

(** SQLite integers are signed 64-bit. *)
Definition sqlite_max_integer : Z := 9223372036854775807.

(** [database.get_or_404(Model, post_id)] with the integer of the URL
    ([<int:post_id>], any string of digits): the driver raises
    [OverflowError] when it binds an integer above the largest SQLite
    integer, before the query runs. *)
Definition get_or_404 {A : Type} (pk : A -> Z) (table : list A) (key : Z)
  : raises A :=
  if sqlite_max_integer <? key
  then Raise OverflowError
  else select_or_404 pk table key.

(** [database.select(User).where(User.email == e)] followed by
    [result.scalar()]: the first matching row or [None]. *)
Definition select_user_by_email (db : Database) (e : string) : option User.t :=
  find (fun u => String.eqb (User.email u) e) (users db).

(** [session.add(new_user); session.commit()].  [email] is [unique=True]. *)
Definition add_User (db : Database) (email name password : string)
  : raises (User.t * Database) :=
  if existsb (fun u => String.eqb (User.email u) email) (users db)
  then Raise (IntegrityError "users.email")
  else
    let u := User.Build (next_rowid (map User.id (users db))) email password name in
    Return (u, {| users := users db ++ [u];
                  blog_posts := blog_posts db;
                  comments := comments db |}).

(** [session.add(new_post); session.commit()].  [title] is [unique=True]. *)
Definition add_BlogPost (db : Database) (author : User.t)
    (title subtitle date body img_url : string)
  : raises (BlogPost.t * Database) :=
  if existsb (fun p => String.eqb (BlogPost.title p) title) (blog_posts db)
  then Raise (IntegrityError "blog_posts.title")
  else
    let p := BlogPost.Build (next_rowid (map BlogPost.id (blog_posts db)))
               (Some (User.id author)) title subtitle date body img_url in
    Return (p, {| users := users db;
                  blog_posts := blog_posts db ++ [p];
                  comments := comments db |}).

(** [session.add(new_comment); session.commit()]. *)
Definition add_Comment (db : Database) (text : string) (comment_author : User.t)
    (parent_post : BlogPost.t) : Comment.t * Database :=
  let c := Comment.Build (next_rowid (map Comment.id (comments db))) text
             (Some (User.id comment_author)) (Some (BlogPost.id parent_post)) in
  (c, {| users := users db;
         blog_posts := blog_posts db;
         comments := comments db ++ [c] |}).

(** [session.commit()] after the attributes of a loaded post were
    assigned: the row with the post's id is rewritten; the UNIQUE
    constraint on [title] is checked against the other rows. *)
Definition update_BlogPost (db : Database) (p' : BlogPost.t) : raises Database :=
  if existsb (fun q => negb (BlogPost.id q =? BlogPost.id p')
                       && String.eqb (BlogPost.title q) (BlogPost.title p'))
             (blog_posts db)
  then Raise (IntegrityError "blog_posts.title")
  else Return
    {| users := users db;
       blog_posts := map (fun q => if BlogPost.id q =? BlogPost.id p' then p' else q)
                         (blog_posts db);
       comments := comments db |}.

(** The ORM flushes pending changes before it runs a SELECT.  With the
    title of a loaded post [p] reassigned and not yet committed, the
    flush writes it, and the UNIQUE constraint is checked there. *)
Definition autoflush_title (db : Database) (p : BlogPost.t) (title : string)
  : raises unit :=
  if existsb (fun q => negb (BlogPost.id q =? BlogPost.id p)
                       && String.eqb (BlogPost.title q) title)
             (blog_posts db)
  then Raise (IntegrityError "blog_posts.title")
  else Return tt.

Definition refers_to (fk : option Z) (key : Z) : bool :=
  match fk with
  | Some k => k =? key
  | None => false
  end.

(** [session.delete(post); session.commit()].  The relationship
    [BlogPost.comments] is declared without a [cascade] option, so the
    ORM keeps the default ("save-update, merge"): when the parent row is
    deleted, it does not delete the children, it sets their foreign key
    [post_id] to NULL. *)
Definition delete_BlogPost (db : Database) (p : BlogPost.t) : Database :=
  {| users := users db;
     blog_posts := filter (fun q => negb (BlogPost.id q =? BlogPost.id p))
                          (blog_posts db);
     comments := map (fun c => if refers_to (Comment.post_id c) (BlogPost.id p)
                               then Comment.set_post_id c None else c)
                     (comments db) |}.

(** ** [datetime.date] and its display format *)

Module datetime.
Record date : Type := { year : nat; month : nat; day : nat }.

Definition decimal (n : nat) : string :=
  NilZero.string_of_uint (Nat.to_uint n).

(** [%B]: the full month name. *)
Definition month_name (m : nat) : string :=
  match m with
  | 1 => "January" | 2 => "February" | 3 => "March" | 4 => "April"
  | 5 => "May" | 6 => "June" | 7 => "July" | 8 => "August"
  | 9 => "September" | 10 => "October" | 11 => "November"
  | 12 => "December" | _ => ""
  end%nat.

(** [%d]: the day of the month on two digits. *)
Definition day_of_month (d : nat) : string :=
  if (d <? 10)%nat then "0" ++ decimal d else decimal d.

(** [d.strftime("%B %d, %Y")]. *)
Definition strftime (d : date) : string :=
  month_name (month d) ++ " " ++ day_of_month (day d) ++ ", " ++ decimal (year d).
End datetime.

(** ** Flask-Login *)

(** The part of the signed session cookie Flask-Login uses: the key
    [_user_id], absent for a browser that is not logged in. *)
Definition session : Type := option Z.

(** What the proxy [current_user] stands for during a request: a row of
    [users], or Flask-Login's [AnonymousUserMixin] object. *)
Inductive principal : Type :=
| LoggedIn (u : User.t)
| AnonymousUserMixin.

(** [@login_manager.user_loader def load_user(user_id)].  The id comes
    from the session, where [login_user] stored it as a string
    ([UserMixin.get_id] is [str(self.id)]); [get_or_404] passes it on as
    text, so no integer is bound and nothing can overflow: the call is
    the query alone. *)
Definition load_user (db : Database) (user_id : Z) : raises User.t :=
  select_or_404 User.id (users db) user_id.

(** Resolving [current_user]: without [_user_id] in the session the
    anonymous object; otherwise whatever the user loader returns, and the
    loader's exception is not caught. *)
Definition current_user (db : Database) (s : session) : raises principal :=
  match s with
  | None => Return AnonymousUserMixin
  | Some user_id => u <- load_user db user_id ;; Return (LoggedIn u)
  end.

(** Resolving [current_user] for the first time in a request while the
    ORM session has pending changes: a session that names a user makes
    [load_user] run its SELECT, which flushes first; without [_user_id]
    no query runs. *)
Definition current_user_after (pending : raises unit) (db : Database) (s : session)
  : raises principal :=
  match s with
  | None => Return AnonymousUserMixin
  | Some user_id =>
      _ <- pending ;; u <- load_user db user_id ;; Return (LoggedIn u)
  end.

(** [current_user.id].  [AnonymousUserMixin] defines [is_authenticated],
    [is_active], [is_anonymous] and [get_id()], and no attribute [id]. *)
Definition principal_id (c : principal) : raises Z :=
  match c with
  | LoggedIn u => Return (User.id u)
  | AnonymousUserMixin => Raise (AttributeError "AnonymousUserMixin" "id")
  end.

(** [current_user.is_authenticated]. *)
Definition is_authenticated (c : principal) : bool :=
  match c with
  | LoggedIn _ => true
  | AnonymousUserMixin => false
  end.

(** [current_user] assigned to a relationship attribute ([author=],
    [comment_author=]): the ORM reads the instance state of the value,
    which only a mapped object has. *)
Definition mapped_instance (c : principal) : raises User.t :=
  match c with
  | LoggedIn u => Return u
  | AnonymousUserMixin =>
      Raise (AttributeError "AnonymousUserMixin" "_sa_instance_state")
  end.

(** [login_user(user)]: [UserMixin.is_active] is always true, so the
    user's id is stored in the session. *)
Definition login_user (u : User.t) : session := Some (User.id u).

(** ** werkzeug.security *)

(** The password hashing primitives are the library's.
    [generate_password_hash password method salt] takes the salt the
    library draws (of [salt_length] characters) as an argument. *)
Class PasswordHashing : Type := {
  generate_password_hash : string -> string -> string -> string;
  check_password_hash : string -> string -> bool
}.

(** ** Forms *)

(** The form classes of [forms.py] carry these fields ([.data] of each
    field read by [main.py]). *)
Record RegistrationForm : Type :=
  { reg_email : string; reg_password : string; reg_name : string }.
Record LoginForm : Type :=
  { login_email : string; login_password : string }.
Record CommentForm : Type :=
  { comment_text : string }.
Record CreateBlogPostForm : Type :=
  { form_title : string; form_subtitle : string;
    form_img_url : string; form_body : string }.

(** A request to a route with [methods=["GET", "POST"]].  Whether the
    submitted fields pass the validators of the form class is decided by
    [forms.py] and Flask-WTF; a POST carries that verdict. *)
Inductive submission (F : Type) : Type :=
| GET
| POST (data : F) (validates : bool).
Arguments GET {F}.
Arguments POST {F} data validates.

(** [form.validate_on_submit()], giving the submitted fields when true. *)
Definition validate_on_submit {F : Type} (r : submission F) : option F :=
  match r with
  | POST data true => Some data
  | _ => None
  end.

(** ** Responses *)

(** The endpoints [url_for] is called with. *)
Inductive endpoint : Type :=
| ep_login
| ep_get_all_posts
| ep_show_post (post_id : Z).

(** The template variables the handlers pass besides [current_user] and
    the form. *)
Inductive context : Type :=
| no_context
| all_posts (posts : list BlogPost.t)
| post (p : BlogPost.t)
| is_edit.

Inductive response : Type :=
| redirect (location : endpoint) (flashed : option string)
| rendered (template : string) (ctx : context)
| error_page (e : exception).

(** The status line of a response: an [HTTPException] carries its code,
    any other unhandled exception is a 500. *)
Definition status_code (r : response) : Z :=
  match r with
  | redirect _ _ => 302
  | rendered _ _ => 200
  | error_page (HTTPException code) => code
  | error_page _ => 500
  end.

(** What a handler leaves behind: the response, the committed database
    and the session cookie sent back. *)
Record result : Type := Result {
  resp : response;
  db_after : Database;
  session_after : session
}.

(** [render_template(..., current_user=current_user)].  Flask-Login's
    context processor resolves [current_user] for every rendered
    template. *)
Definition render_template (db : Database) (s : session)
    (template : string) (ctx : context) : raises result :=
  _ <- current_user db s ;;
  Return (Result (rendered template ctx) db s).

(** ** The route handlers *)

(** What a request reads from outside the database and the cookie: the
    day [date.today()] returns and the salt drawn for a new hash. *)
Record environ : Type := { today : datetime.date; salt : string }.

(** [def admin_only(function_to_be_passed)]: the decorator of
    [/new-post] and [/delete/<id>]. *)
Definition admin_only (function_to_be_passed : Database -> session -> raises result)
    (db : Database) (s : session) : raises result :=
  c <- current_user db s ;;
  id <- principal_id c ;;
  if negb (id =? 1)
  then Raise (HTTPException 403)
  else function_to_be_passed db s.

Section Views.
Context {hashing : PasswordHashing}.
Variable env : environ.

(** [@app.route('/register', methods=["GET", "POST"])]. *)
Definition register (db : Database) (s : session)
    (request : submission RegistrationForm) : raises result :=
  match validate_on_submit request with
  | Some form =>
      match select_user_by_email db (reg_email form) with
      | Some _ =>
          Return (Result
            (redirect ep_login
               (Some "You've already signed up with that email, log in instead!"))
            db s)
      | None =>
          let hash_and_salted_password :=
            generate_password_hash (reg_password form) "pbkdf2:sha256" (salt env) in
          ' (new_user, db') <-
            add_User db (reg_email form) (reg_name form) hash_and_salted_password ;;
          Return (Result (redirect ep_get_all_posts None) db' (login_user new_user))
      end
  | None => render_template db s "register.html" no_context
  end.

(** [@app.route('/login', methods=["GET", "POST"])]. *)
Definition login (db : Database) (s : session)
    (request : submission LoginForm) : raises result :=
  match validate_on_submit request with
  | Some form =>
      match select_user_by_email db (login_email form) with
      | None =>
          Return (Result
            (redirect ep_login (Some "That email does not exist, please try again."))
            db s)
      | Some user =>
          if negb (check_password_hash (User.password user) (login_password form))
          then
            Return (Result
              (redirect ep_login (Some "Password incorrect, please try again."))
              db s)
          else Return (Result (redirect ep_get_all_posts None) db (login_user user))
      end
  | None => render_template db s "login.html" no_context
  end.

(** [@app.route('/logout')].  [logout_user()] resolves the current
    user before it removes [_user_id] from the session. *)
Definition logout (db : Database) (s : session) : raises result :=
  _ <- current_user db s ;;
  Return (Result (redirect ep_get_all_posts None) db None).

(** [@app.route('/')]. *)
Definition get_all_posts (db : Database) (s : session) : raises result :=
  render_template db s "index.html" (all_posts (blog_posts db)).

(** [@app.route("/post/<int:post_id>", methods=["GET", "POST"])]. *)
Definition show_post (db : Database) (s : session) (post_id : Z)
    (request : submission CommentForm) : raises result :=
  requested_post <- get_or_404 BlogPost.id (blog_posts db) post_id ;;
  match validate_on_submit request with
  | Some form =>
      c <- current_user db s ;;
      if negb (is_authenticated c)
      then
        Return (Result
          (redirect ep_login (Some "You need to login or register to comment."))
          db s)
      else
        comment_author <- mapped_instance c ;;
        let db' := snd (add_Comment db (comment_text form) comment_author
                          requested_post) in
        render_template db' s "post.html" (post requested_post)
  | None => render_template db s "post.html" (post requested_post)
  end.

(** [@app.route("/new-post", methods=["GET", "POST"])], [@admin_only]. *)
Definition add_new_post (db : Database) (s : session)
    (request : submission CreateBlogPostForm) : raises result :=
  admin_only (fun db s =>
    match validate_on_submit request with
    | Some form =>
        c <- current_user db s ;;
        author <- mapped_instance c ;;
        ' (_, db') <-
          add_BlogPost db author (form_title form) (form_subtitle form)
            (datetime.strftime (today env)) (form_body form) (form_img_url form) ;;
        Return (Result (redirect ep_get_all_posts None) db' s)
    | None => render_template db s "make-post.html" no_context
    end) db s.

(** [@app.route("/edit-post/<int:post_id>", methods=["GET", "POST"])];
    the route carries no [@admin_only].  The handler touches
    [current_user] for the first time at [post.author = current_user],
    after it assigned [post.title]. *)
Definition edit_post (db : Database) (s : session) (post_id : Z)
    (request : submission CreateBlogPostForm) : raises result :=
  p <- get_or_404 BlogPost.id (blog_posts db) post_id ;;
  match validate_on_submit request with
  | Some form =>
      c <- current_user_after (autoflush_title db p (form_title form)) db s ;;
      author <- mapped_instance c ;;
      let p' :=
        {| BlogPost.id := BlogPost.id p;
           BlogPost.author_id := Some (User.id author);
           BlogPost.title := form_title form;
           BlogPost.subtitle := form_subtitle form;
           BlogPost.date := BlogPost.date p;
           BlogPost.body := form_body form;
           BlogPost.img_url := form_img_url form |} in
      db' <- update_BlogPost db p' ;;
      Return (Result (redirect (ep_show_post (BlogPost.id p)) None) db' s)
  | None => render_template db s "make-post.html" is_edit
  end.

(** [@app.route("/delete/<int:post_id>")], [@admin_only]. *)
Definition delete_post (db : Database) (s : session) (post_id : Z)
  : raises result :=
  admin_only (fun db s =>
    post_to_delete <- get_or_404 BlogPost.id (blog_posts db) post_id ;;
    Return (Result (redirect ep_get_all_posts None)
              (delete_BlogPost db post_to_delete) s)) db s.

(** [@app.route("/about")] and [@app.route("/contact")]. *)
Definition about (db : Database) (s : session) : raises result :=
  render_template db s "about.html" no_context.

Definition contact (db : Database) (s : session) : raises result :=
  render_template db s "contact.html" no_context.

(** The URL map of the application. *)
Inductive request : Type :=
| Register (f : submission RegistrationForm)
| Login (f : submission LoginForm)
| Logout
| Home
| ShowPost (post_id : Z) (f : submission CommentForm)
| NewPost (f : submission CreateBlogPostForm)
| EditPost (post_id : Z) (f : submission CreateBlogPostForm)
| Delete (post_id : Z)
| About
| Contact.

Definition dispatch_request (db : Database) (s : session) (r : request)
  : raises result :=
  match r with
  | Register f => register db s f
  | Login f => login db s f
  | Logout => logout db s
  | Home => get_all_posts db s
  | ShowPost post_id f => show_post db s post_id f
  | NewPost f => add_new_post db s f
  | EditPost post_id f => edit_post db s post_id f
  | Delete post_id => delete_post db s post_id
  | About => about db s
  | Contact => contact db s
  end.

(** Flask's [full_dispatch_request]: an exception the handler lets
    through becomes the error response; nothing was committed and the
    session is as the request brought it. *)
Definition full_dispatch_request (db : Database) (s : session) (r : request)
  : result :=
  match dispatch_request db s r with
  | Return res => res
  | Raise e => Result (error_page e) db s
  end.
End Views.

(** ** Runs of the application *)

Section Runs.
Context {hashing : PasswordHashing}.

(** The databases the application can be in: the one [create_all]
    makes, and what any request, with any cookie, leaves behind. *)
Inductive reachable : Database -> Prop :=
| reachable_create_all : reachable create_all
| reachable_request (db : Database) (env : environ) (s : session) (r : request) :
    reachable db ->
    reachable (db_after (full_dispatch_request env db s r)).

(** One browser sending requests one after the other, keeping the
    cookie each response sets. *)
Fixpoint browse (db : Database) (s : session) (rs : list (environ * request))
  : Database * session :=
  match rs with
  | [] => (db, s)
  | (env, r) :: rs' =>
      let res := full_dispatch_request env db s r in
      browse (db_after res) (session_after res) rs'
  end.
End Runs.

(** ** Integrity of the database *)

(** Primary keys and UNIQUE columns hold no value twice, and a foreign
    key that is set names a row of the table it points to; the author of
    a post and of a comment is always set, the parent of a comment may be
    NULL. *)
Record consistent (db : Database) : Prop := {
  users_pk : NoDup (map User.id (users db));
  blog_posts_pk : NoDup (map BlogPost.id (blog_posts db));
  comments_pk : NoDup (map Comment.id (comments db));
  email_unique : NoDup (map User.email (users db));
  title_unique : NoDup (map BlogPost.title (blog_posts db));
  post_author_fk : forall p, In p (blog_posts db) ->
    exists u, In u (users db) /\ BlogPost.author_id p = Some (User.id u);
  comment_author_fk : forall c, In c (comments db) ->
    exists u, In u (users db) /\ Comment.author_id c = Some (User.id u);
  comment_post_fk : forall c, In c (comments db) ->
    Comment.post_id c = None \/
    exists p, In p (blog_posts db) /\ Comment.post_id c = Some (BlogPost.id p)
}.

(** ** Facts about the table operations *)

Lemma fold_max_upper (ids : list Z) (x : Z) :
  In x ids -> x <= fold_right Z.max 0 ids.
Proof.
  induction ids as [|y ids IH]; simpl; intros Hin.
  - contradiction.
  - destruct Hin as [->|Hin].
    + lia.
    + specialize (IH Hin). lia.
Qed.

Lemma next_rowid_fresh (ids : list Z) : ~ In (next_rowid ids) ids.
Proof.
  intros Hin. apply fold_max_upper in Hin. unfold next_rowid in Hin. lia.
Qed.

Lemma next_rowid_positive (ids : list Z) : 1 <= next_rowid ids.
Proof.
  unfold next_rowid.
  assert (0 <= fold_right Z.max 0 ids) by (induction ids; simpl; lia).
  lia.
Qed.

Lemma NoDup_map_snoc {A B : Type} (f : A -> B) (l : list A) (a : A) :
  NoDup (map f l) -> ~ In (f a) (map f l) -> NoDup (map f (l ++ [a])).
Proof.
  intros Hnd Hfresh. rewrite map_app. simpl.
  apply NoDup_app; [assumption | repeat constructor; simpl; tauto | ].
  intros b Hb [<-|[]]. contradiction.
Qed.

Lemma NoDup_map_inj {A B : Type} (f : A -> B) (l : list A) (a b : A) :
  NoDup (map f l) -> In a l -> In b l -> f a = f b -> a = b.
Proof.
  induction l as [|x l IH]; simpl; intros Hnd Ha Hb Hab.
  - contradiction.
  - inversion Hnd as [|? ? Hx Hnd']; subst.
    destruct Ha as [->|Ha], Hb as [->|Hb].
    + reflexivity.
    + exfalso. apply Hx. rewrite Hab. now apply in_map.
    + exfalso. apply Hx. rewrite <- Hab. now apply in_map.
    + now apply IH.
Qed.

Lemma select_or_404_Return {A : Type} (pk : A -> Z) (table : list A) (key : Z) (r : A) :
  select_or_404 pk table key = Return r -> In r table /\ pk r = key.
Proof.
  unfold select_or_404. destruct (find _ table) as [r'|] eqn:Hfind; [|discriminate].
  intros [= <-]. apply find_some in Hfind. destruct Hfind as [Hin Hk].
  split; [assumption | now apply Z.eqb_eq].
Qed.

Lemma select_or_404_absent {A : Type} (pk : A -> Z) (table : list A) (key : Z) :
  ~ In key (map pk table) -> select_or_404 pk table key = Raise (HTTPException 404).
Proof.
  intros Habs. unfold select_or_404.
  destruct (find _ table) as [r|] eqn:Hfind; [|reflexivity].
  apply find_some in Hfind. destruct Hfind as [Hin Hk].
  apply Z.eqb_eq in Hk. subst key. exfalso. apply Habs. now apply in_map.
Qed.

Lemma select_or_404_present {A : Type} (pk : A -> Z) (table : list A) (r : A) :
  NoDup (map pk table) -> In r table -> select_or_404 pk table (pk r) = Return r.
Proof.
  intros Hnd Hin. unfold select_or_404.
  destruct (find _ table) as [r'|] eqn:Hfind.
  - apply find_some in Hfind. destruct Hfind as [Hin' Hk].
    apply Z.eqb_eq in Hk. f_equal. eapply NoDup_map_inj; eauto.
  - apply (find_none _ _ Hfind) in Hin. rewrite Z.eqb_refl in Hin. discriminate.
Qed.

Lemma get_or_404_in_range {A : Type} (pk : A -> Z) (table : list A) (key : Z) :
  key <= sqlite_max_integer -> get_or_404 pk table key = select_or_404 pk table key.
Proof.
  intros Hkey. unfold get_or_404.
  destruct (sqlite_max_integer <? key) eqn:Hmax; [|reflexivity].
  apply Z.ltb_lt in Hmax. lia.
Qed.

Lemma get_or_404_overflow {A : Type} (pk : A -> Z) (table : list A) (key : Z) :
  sqlite_max_integer < key -> get_or_404 pk table key = Raise OverflowError.
Proof.
  intros Hkey. unfold get_or_404. apply Z.ltb_lt in Hkey. now rewrite Hkey.
Qed.

Lemma get_or_404_Return_range {A : Type} (pk : A -> Z) (table : list A) (key : Z)
    (r : A) :
  get_or_404 pk table key = Return r ->
  key <= sqlite_max_integer /\ select_or_404 pk table key = Return r.
Proof.
  unfold get_or_404. destruct (sqlite_max_integer <? key) eqn:Hmax; [discriminate|].
  apply Z.ltb_ge in Hmax. tauto.
Qed.

Lemma get_or_404_Return {A : Type} (pk : A -> Z) (table : list A) (key : Z) (r : A) :
  get_or_404 pk table key = Return r -> In r table /\ pk r = key.
Proof.
  intros H. apply get_or_404_Return_range in H. destruct H as [_ H].
  now apply select_or_404_Return in H.
Qed.

Lemma get_or_404_absent {A : Type} (pk : A -> Z) (table : list A) (key : Z) :
  key <= sqlite_max_integer ->
  ~ In key (map pk table) -> get_or_404 pk table key = Raise (HTTPException 404).
Proof.
  intros Hkey Habs. rewrite get_or_404_in_range by assumption.
  now apply select_or_404_absent.
Qed.

Lemma get_or_404_present {A : Type} (pk : A -> Z) (table : list A) (r : A) :
  pk r <= sqlite_max_integer ->
  NoDup (map pk table) -> In r table -> get_or_404 pk table (pk r) = Return r.
Proof.
  intros Hkey Hnd Hin. rewrite get_or_404_in_range by assumption.
  now apply select_or_404_present.
Qed.

Lemma current_user_LoggedIn (db : Database) (s : session) (u : User.t) :
  current_user db s = Return (LoggedIn u) ->
  In u (users db) /\ s = Some (User.id u).
Proof.
  destruct s as [uid|]; simpl; [|discriminate].
  unfold load_user. destruct (select_or_404 _ _ uid) as [u'|e] eqn:Hget; simpl;
    [|discriminate].
  intros [= ->]. apply select_or_404_Return in Hget. destruct Hget as [Hin <-]. tauto.
Qed.

Lemma current_user_after_Return (pending : raises unit) (db : Database)
    (s : session) (c : principal) :
  current_user_after pending db s = Return c -> current_user db s = Return c.
Proof.
  destruct s as [user_id|]; simpl; [|tauto].
  destruct pending as [[]|e]; simpl; [tauto|discriminate].
Qed.

Lemma current_user_after_flushed (db : Database) (s : session) :
  current_user_after (Return tt) db s = current_user db s.
Proof. now destruct s. Qed.

Lemma existsb_eqb_absent {A : Type} (f : A -> string) (l : list A) (k : string) :
  existsb (fun a => String.eqb (f a) k) l = false -> ~ In k (map f l).
Proof.
  intros Hex Hin. apply in_map_iff in Hin. destruct Hin as [a [Hfa Hin]].
  assert (Htrue : existsb (fun a => String.eqb (f a) k) l = true).
  { apply existsb_exists. exists a. split; [assumption|]. now apply String.eqb_eq. }
  congruence.
Qed.

Lemma existsb_eqb_present {A : Type} (f : A -> string) (l : list A) (a : A) :
  In a l -> existsb (fun b => String.eqb (f b) (f a)) l = true.
Proof.
  intros Hin. apply existsb_exists. exists a. split; [assumption|].
  apply String.eqb_refl.
Qed.

Lemma NoDup_map_filter {A B : Type} (f : A -> B) (g : A -> bool) (l : list A) :
  NoDup (map f l) -> NoDup (map f (filter g l)).
Proof.
  induction l as [|a l IH]; simpl; intros Hnd; [constructor|].
  inversion Hnd as [|? ? Ha Hnd']; subst.
  destruct (g a); simpl; [|now apply IH].
  constructor; [|now apply IH].
  intros Hin. apply Ha. apply in_map_iff in Hin. destruct Hin as [b [Hb Hin]].
  apply filter_In in Hin. rewrite <- Hb. apply in_map. tauto.
Qed.

Lemma add_User_consistent (db db' : Database) (e n p : string) (u : User.t) :
  add_User db e n p = Return (u, db') -> consistent db -> consistent db'.
Proof.
  unfold add_User. destruct (existsb _ (users db)) eqn:Hex; [discriminate|].
  intros [= <- <-] [Hu Hp Hc He Ht Hpa Hca Hcp].
  constructor; simpl; try assumption.
  - apply NoDup_map_snoc; [assumption|]. apply next_rowid_fresh.
  - apply NoDup_map_snoc; [assumption|]. simpl. now apply existsb_eqb_absent.
  - intros q Hq. destruct (Hpa q Hq) as [v [Hv Ha]].
    exists v. split; [apply in_or_app; now left | assumption].
  - intros c Hc'. destruct (Hca c Hc') as [v [Hv Ha]].
    exists v. split; [apply in_or_app; now left | assumption].
Qed.

Lemma add_BlogPost_consistent (db db' : Database) (author : User.t)
    (t st d b i : string) (p : BlogPost.t) :
  add_BlogPost db author t st d b i = Return (p, db') ->
  In author (users db) -> consistent db -> consistent db'.
Proof.
  unfold add_BlogPost. destruct (existsb _ (blog_posts db)) eqn:Hex; [discriminate|].
  intros [= <- <-] Hauthor [Hu Hp Hc He Ht Hpa Hca Hcp].
  constructor; simpl; try assumption.
  - apply NoDup_map_snoc; [assumption|]. apply next_rowid_fresh.
  - apply NoDup_map_snoc; [assumption|]. simpl. now apply existsb_eqb_absent.
  - intros q Hq. apply in_app_or in Hq. destruct Hq as [Hq|[<-|[]]].
    + now apply Hpa.
    + exists author. simpl. tauto.
  - intros c Hc'. destruct (Hcp c Hc') as [Hnull|[q [Hq Hfk]]]; [now left|].
    right. exists q. split; [apply in_or_app; now left | assumption].
Qed.

Lemma add_Comment_consistent (db : Database) (txt : string) (author : User.t)
    (parent : BlogPost.t) :
  In author (users db) -> In parent (blog_posts db) -> consistent db ->
  consistent (snd (add_Comment db txt author parent)).
Proof.
  intros Hauthor Hparent [Hu Hp Hc He Ht Hpa Hca Hcp].
  constructor; simpl; try assumption.
  - apply NoDup_map_snoc; [assumption|]. apply next_rowid_fresh.
  - intros c Hc'. apply in_app_or in Hc'. destruct Hc' as [Hc'|[<-|[]]].
    + now apply Hca.
    + exists author. simpl. tauto.
  - intros c Hc'. apply in_app_or in Hc'. destruct Hc' as [Hc'|[<-|[]]].
    + now apply Hcp.
    + right. exists parent. simpl. tauto.
Qed.

Lemma map_id_rewrite (p' : BlogPost.t) (l : list BlogPost.t) :
  map BlogPost.id
      (map (fun q => if BlogPost.id q =? BlogPost.id p' then p' else q) l)
  = map BlogPost.id l.
Proof.
  induction l as [|q l IH]; simpl; [reflexivity|].
  rewrite IH. destruct (BlogPost.id q =? BlogPost.id p') eqn:Hq; [|reflexivity].
  apply Z.eqb_eq in Hq. now rewrite Hq.
Qed.

Lemma In_rewrite (p' q : BlogPost.t) (l : list BlogPost.t) :
  In q (map (fun q => if BlogPost.id q =? BlogPost.id p' then p' else q) l) ->
  (q = p' /\ In (BlogPost.id p') (map BlogPost.id l)) \/
  (In q l /\ BlogPost.id q <> BlogPost.id p').
Proof.
  intros Hin. apply in_map_iff in Hin. destruct Hin as [r [Hr Hin]].
  destruct (BlogPost.id r =? BlogPost.id p') eqn:Hid.
  - left. apply Z.eqb_eq in Hid. split; [now symmetry|].
    rewrite <- Hid. now apply in_map.
  - right. apply Z.eqb_neq in Hid. subst q. tauto.
Qed.

Lemma rewrite_title_unique (p' : BlogPost.t) (l : list BlogPost.t) :
  NoDup (map BlogPost.title l) ->
  existsb (fun q => negb (BlogPost.id q =? BlogPost.id p')
                    && String.eqb (BlogPost.title q) (BlogPost.title p')) l = false ->
  NoDup (map BlogPost.id l) ->
  NoDup (map BlogPost.title
           (map (fun q => if BlogPost.id q =? BlogPost.id p' then p' else q) l)).
Proof.
  intros Ht Hex. 
  assert (Hother : forall q, In q l -> BlogPost.id q <> BlogPost.id p' ->
                             BlogPost.title q <> BlogPost.title p').
  { intros q Hq Hid Htitle.
    assert (Htrue : existsb (fun q => negb (BlogPost.id q =? BlogPost.id p')
                    && String.eqb (BlogPost.title q) (BlogPost.title p')) l = true).
    { apply existsb_exists. exists q. split; [assumption|].
      apply andb_true_iff. split.
      - apply negb_true_iff. now apply Z.eqb_neq.
      - now apply String.eqb_eq. }
    congruence. }
  clear Hex. induction l as [|a l IH]; simpl; intros Hid; [constructor|].
  inversion Ht as [|? ? Ha Ht']; subst.
  inversion Hid as [|? ? Hai Hid']; subst.
  assert (IH' := IH Ht' (fun q Hq => Hother q (or_intror Hq)) Hid').
  constructor; [|assumption].
  intros Hin. apply in_map_iff in Hin. destruct Hin as [q [Hq Hin]].
  apply In_rewrite in Hin.
  destruct (BlogPost.id a =? BlogPost.id p') eqn:Haid.
  - apply Z.eqb_eq in Haid. destruct Hin as [[-> Hin]|[Hin Hne]].
    + apply Hai. now rewrite Haid.
    + apply (Hother q (or_intror Hin) Hne). assumption.
  - apply Z.eqb_neq in Haid. destruct Hin as [[-> Hin]|[Hin Hne]].
    + apply (Hother a (or_introl eq_refl) Haid). now symmetry.
    + apply Ha. rewrite <- Hq. now apply in_map.
Qed.

Lemma update_BlogPost_consistent (db db' : Database) (p' : BlogPost.t) :
  update_BlogPost db p' = Return db' ->
  (exists u, In u (users db) /\ BlogPost.author_id p' = Some (User.id u)) ->
  consistent db -> consistent db'.
Proof.
  unfold update_BlogPost. destruct (existsb _ (blog_posts db)) eqn:Hex; [discriminate|].
  intros [= <-] Hauthor [Hu Hp Hc He Ht Hpa Hca Hcp].
  constructor; simpl; try assumption.
  - now rewrite map_id_rewrite.
  - now apply rewrite_title_unique.
  - intros q Hq. apply In_rewrite in Hq. destruct Hq as [[-> _]|[Hq _]].
    + assumption.
    + now apply Hpa.
  - intros c Hc'. destruct (Hcp c Hc') as [Hnull|[q [Hq Hfk]]]; [now left|].
    right.
    assert (Hid : In (BlogPost.id q)
              (map BlogPost.id
                 (map (fun q => if BlogPost.id q =? BlogPost.id p' then p' else q)
                    (blog_posts db)))).
    { rewrite map_id_rewrite. now apply in_map. }
    apply in_map_iff in Hid. destruct Hid as [r [Hr Hin]].
    exists r. split; [assumption | congruence].
Qed.

Lemma delete_BlogPost_consistent (db : Database) (p : BlogPost.t) :
  consistent db -> consistent (delete_BlogPost db p).
Proof.
  intros [Hu Hp Hc He Ht Hpa Hca Hcp].
  constructor; simpl; try assumption.
  - now apply NoDup_map_filter.
  - rewrite map_map.
    erewrite map_ext; [exact Hc|].
    intros c. now destruct (refers_to _ _).
  - now apply NoDup_map_filter.
  - intros q Hq. apply filter_In in Hq. now apply Hpa.
  - intros c Hc'. apply in_map_iff in Hc'. destruct Hc' as [c0 [Hc0 Hin]].
    destruct (Hca c0 Hin) as [u [Hin' Hfk]]. exists u. split; [assumption|].
    subst c. now destruct (refers_to _ _).
  - intros c Hc'. apply in_map_iff in Hc'. destruct Hc' as [c0 [Hc0 Hin]].
    destruct (refers_to (Comment.post_id c0) (BlogPost.id p)) eqn:Href; subst c.
    + now left.
    + destruct (Hcp c0 Hin) as [Hnull|[q [Hq Hfk]]]; [now left|].
      right. exists q. split; [|assumption].
      apply filter_In. split; [assumption|].
      rewrite Hfk in Href. simpl in Href. now rewrite Href.
Qed.

(** ** Facts about the handlers *)

Lemma bind_Return {A B : Type} (m : raises A) (k : A -> raises B) (b : B) :
  (x <- m ;; k x) = Return b -> exists a, m = Return a /\ k a = Return b.
Proof.
  destruct m as [a|e]; simpl; [|discriminate]. intros H. now exists a.
Qed.

Ltac bind_inv H :=
  let a := fresh "a" in
  let Ha := fresh "H" a in
  apply bind_Return in H; destruct H as [a [Ha H]].

Lemma render_template_Return (db : Database) (s : session) (t : string)
    (c : context) (res : result) :
  render_template db s t c = Return res -> res = Result (rendered t c) db s.
Proof.
  unfold render_template. intros H. bind_inv H. now injection H as <-.
Qed.

Lemma admin_only_Return (f : Database -> session -> raises result)
    (db : Database) (s : session) (res : result) :
  admin_only f db s = Return res ->
  (exists u, In u (users db) /\ User.id u = 1 /\ s = Some 1) /\ f db s = Return res.
Proof.
  unfold admin_only. intros H. bind_inv H. bind_inv H.
  destruct (negb (a0 =? 1)) eqn:Hid; [discriminate|].
  apply negb_false_iff, Z.eqb_eq in Hid. subst a0.
  split; [|assumption].
  destruct a as [u|]; simpl in Ha0; [|discriminate].
  injection Ha0 as Hu. apply current_user_LoggedIn in Ha.
  exists u. destruct Ha as [Hin ->]. rewrite Hu. tauto.
Qed.

Section Preservation.
Context {hashing : PasswordHashing}.
Variable env : environ.

Lemma register_consistent db s f res :
  register env db s f = Return res -> consistent db -> consistent (db_after res).
Proof.
  unfold register. destruct (validate_on_submit f) as [form|].
  - destruct (select_user_by_email db (reg_email form)).
    + now intros [= <-].
    + intros H Hdb. bind_inv H. destruct a as [new_user db'].
      injection H as <-. simpl. eapply add_User_consistent; eauto.
  - intros H. apply render_template_Return in H. now subst res.
Qed.

Lemma login_consistent db s f res :
  login db s f = Return res -> consistent db -> consistent (db_after res).
Proof.
  unfold login. destruct (validate_on_submit f) as [form|].
  - destruct (select_user_by_email db (login_email form)) as [user|].
    + destruct (negb _); now intros [= <-].
    + now intros [= <-].
  - intros H. apply render_template_Return in H. now subst res.
Qed.

Lemma show_post_consistent db s post_id f res :
  show_post db s post_id f = Return res -> consistent db -> consistent (db_after res).
Proof.
  unfold show_post. intros H Hdb. bind_inv H.
  apply get_or_404_Return in Ha. destruct Ha as [Hpost _].
  destruct (validate_on_submit f) as [form|].
  - bind_inv H. destruct (negb (is_authenticated a0)).
    + now injection H as <-.
    + bind_inv H. apply render_template_Return in H. subst res. simpl.
      destruct a0 as [u|]; simpl in Ha1; [|discriminate].
      injection Ha1 as ->. apply current_user_LoggedIn in Ha0.
      apply add_Comment_consistent; tauto.
  - apply render_template_Return in H. now subst res.
Qed.

Lemma add_new_post_consistent db s f res :
  add_new_post env db s f = Return res -> consistent db -> consistent (db_after res).
Proof.
  unfold add_new_post. intros H Hdb. apply admin_only_Return in H.
  destruct H as [_ H]. destruct (validate_on_submit f) as [form|].
  - bind_inv H. bind_inv H. bind_inv H. destruct a1 as [p db'].
    injection H as <-. simpl.
    destruct a as [u|]; simpl in Ha0; [|discriminate].
    injection Ha0 as ->. apply current_user_LoggedIn in Ha.
    eapply add_BlogPost_consistent; eauto. tauto.
  - apply render_template_Return in H. now subst res.
Qed.

Lemma edit_post_consistent db s post_id f res :
  edit_post db s post_id f = Return res -> consistent db -> consistent (db_after res).
Proof.
  unfold edit_post. intros H Hdb. bind_inv H.
  destruct (validate_on_submit f) as [form|].
  - bind_inv H. bind_inv H. bind_inv H. injection H as <-. simpl.
    destruct a0 as [u|]; simpl in Ha1; [|discriminate].
    injection Ha1 as ->. apply current_user_after_Return in Ha0.
    apply current_user_LoggedIn in Ha0.
    eapply update_BlogPost_consistent; eauto.
    exists a1. simpl. tauto.
  - apply render_template_Return in H. now subst res.
Qed.

Lemma delete_post_consistent db s post_id res :
  delete_post db s post_id = Return res -> consistent db -> consistent (db_after res).
Proof.
  unfold delete_post. intros H Hdb. apply admin_only_Return in H.
  destruct H as [_ H]. bind_inv H. injection H as <-. simpl.
  now apply delete_BlogPost_consistent.
Qed.

Lemma dispatch_request_consistent db s r res :
  dispatch_request env db s r = Return res ->
  consistent db -> consistent (db_after res).
Proof.
  destruct r; simpl.
  - apply register_consistent.
  - apply login_consistent.
  - unfold logout. intros H Hdb. bind_inv H. now injection H as <-.
  - unfold get_all_posts. intros H. apply render_template_Return in H. now subst res.
  - apply show_post_consistent.
  - apply add_new_post_consistent.
  - apply edit_post_consistent.
  - apply delete_post_consistent.
  - unfold about. intros H. apply render_template_Return in H. now subst res.
  - unfold contact. intros H. apply render_template_Return in H. now subst res.
Qed.

Lemma full_dispatch_request_consistent db s r :
  consistent db -> consistent (db_after (full_dispatch_request env db s r)).
Proof.
  intros Hdb. unfold full_dispatch_request.
  destruct (dispatch_request env db s r) as [res|e] eqn:Hres; simpl.
  - eapply dispatch_request_consistent; eauto.
  - assumption.
Qed.
End Preservation.

Lemma create_all_consistent : consistent create_all.
Proof.
  constructor; simpl; try apply NoDup_nil; intros ? [].
Qed.

Lemma reachable_consistent {hashing : PasswordHashing} (db : Database) :
  reachable db -> consistent db.
Proof.
  induction 1 as [|db env s r _ IH].
  - apply create_all_consistent.
  - now apply full_dispatch_request_consistent.
Qed.

Lemma browse_reachable {hashing : PasswordHashing} (rs : list (environ * request))
    (db : Database) (s : session) :
  reachable db -> reachable (fst (browse db s rs)).
Proof.
  revert db s. induction rs as [|[env r] rs IH]; simpl; intros db s Hdb.
  - assumption.
  - apply IH. now constructor.
Qed.

(** ** A worked run *)

Module Demo.
(** A stand-in for the hashing library, good enough to run examples:
    the hash is the method, the salt and the password joined by [$],
    and a password verifies when the hash ends with it. *)
Definition hashing : PasswordHashing :=
  {| generate_password_hash pw method salt := method ++ "$" ++ salt ++ "$" ++ pw;
     check_password_hash h pw :=
       String.eqb
         (substring (String.length h - String.length pw - 1)
                    (S (String.length pw)) h)
         ("$" ++ pw) |}.

Definition env : environ :=
  {| today := {| datetime.year := 2025; datetime.month := 6; datetime.day := 3 |};
     salt := "a1b2c3d4" |}.

Definition admin_form : RegistrationForm :=
  {| reg_email := "admin@x.com"; reg_password := "secret"; reg_name := "Admin" |}.
Definition reader_form : RegistrationForm :=
  {| reg_email := "a@x.com"; reg_password := "hunter2"; reg_name := "A" |}.
Definition hello : CreateBlogPostForm :=
  {| form_title := "Hello"; form_subtitle := "S"; form_img_url := "U";
     form_body := "B" |}.
Definition world : CreateBlogPostForm :=
  {| form_title := "World"; form_subtitle := "S2"; form_img_url := "U2";
     form_body := "B2" |}.
Definition nice : CommentForm := {| comment_text := "Nice post" |}.

Definition admin : User.t :=
  User.Build 1 "admin@x.com" "pbkdf2:sha256$a1b2c3d4$secret" "Admin".
Definition reader : User.t :=
  User.Build 2 "a@x.com" "pbkdf2:sha256$a1b2c3d4$hunter2" "A".
Definition hello_post : BlogPost.t :=
  BlogPost.Build 1 (Some 1) "Hello" "S" "June 03, 2025" "B" "U".
Definition world_post : BlogPost.t :=
  BlogPost.Build 2 (Some 1) "World" "S2" "June 03, 2025" "B2" "U2".
Definition nice_comment : Comment.t :=
  Comment.Build 1 "Nice post" (Some 1) (Some 1).

(** The first user registers (and is the administrator), then writes
    two posts and comments on the first. *)
Definition history : list (environ * request) :=
  [ (env, Register (POST admin_form true));
    (env, NewPost (POST hello true));
    (env, NewPost (POST world true));
    (env, ShowPost 1 (POST nice true)) ].

Definition blog : Database :=
  {| users := [admin];
     blog_posts := [hello_post; world_post];
     comments := [nice_comment] |}.

Lemma history_blog : browse (hashing := hashing) create_all None history = (blog, Some 1).
Proof. reflexivity. Qed.

Lemma blog_reachable : reachable (hashing := hashing) blog.
Proof.
  change blog with (fst (browse (hashing := hashing) create_all None history)).
  apply browse_reachable. constructor.
Qed.

(** A reader registers after the administrator. *)
Definition blog_with_reader : Database :=
  {| users := [admin; reader];
     blog_posts := [hello_post; world_post];
     comments := [nice_comment] |}.

Lemma blog_with_reader_reachable : reachable (hashing := hashing) blog_with_reader.
Proof.
  change blog_with_reader with
    (db_after (full_dispatch_request (hashing := hashing) env blog None
                 (Register (POST reader_form true)))).
  constructor. apply blog_reachable.
Qed.

Example strftime_example :
  datetime.strftime {| datetime.year := 2025; datetime.month := 6; datetime.day := 3 |}
  = "June 03, 2025".
Proof. reflexivity. Qed.
End Demo.


(** * Properties of the application *)

(** ** Sessions *)

Lemma select_or_404_Raise {A : Type} (pk : A -> Z) (table : list A) (key : Z)
    (e : exception) :
  select_or_404 pk table key = Raise e -> e = HTTPException 404.
Proof.
  unfold select_or_404. destruct (find _ table); [discriminate|]. now intros [= <-].
Qed.

(** C10, as stated, fails: not every request with such a session is
    answered 404.  In the worked run, with a session naming user 5 (no
    such row), a validated login form never resolves [current_user]: it
    is answered with the redirect and logs user 1 in.  And a validated
    edit of post 1 with the title of post 2 fails at the flush that
    precedes the user query: it is answered with the integrity error
    (status 500). *)
Lemma stale_session_not_always_404_example :
  ~ In 5 (map User.id (users Demo.blog)) /\
  full_dispatch_request (hashing := Demo.hashing) Demo.env Demo.blog (Some 5)
    (Login (POST (Build_LoginForm "admin@x.com" "secret") true))
  = Result (redirect ep_get_all_posts None) Demo.blog (Some 1) /\
  status_code
    (resp (full_dispatch_request (hashing := Demo.hashing) Demo.env Demo.blog (Some 5)
             (Login (POST (Build_LoginForm "admin@x.com" "secret") true)))) = 302 /\
  full_dispatch_request (hashing := Demo.hashing) Demo.env Demo.blog (Some 5)
    (EditPost 1 (POST (Build_CreateBlogPostForm "World" "S'" "U'" "B'") true))
  = Result (error_page (IntegrityError "blog_posts.title")) Demo.blog (Some 5) /\
  status_code
    (resp (full_dispatch_request (hashing := Demo.hashing) Demo.env Demo.blog (Some 5)
             (EditPost 1 (POST (Build_CreateBlogPostForm "World" "S'" "U'" "B'")
                            true)))) = 500.
Proof.
  split; [|repeat split].
  simpl. intros [H|[]]. discriminate H.
Qed.

(** C10, amended.  When the session of a request names a user id with
    no row in [users], resolving [current_user] raises the 404 of
    [load_user]; the caller is not treated as anonymous.  Every request
    that reaches the resolution is answered 404, with nothing written
    and the session kept: that is every request except a validated
    registration or login form (answered from the form alone), a post id
    above the largest SQLite integer on [/post/<id>] or
    [/edit-post/<id>] (the lookup of the post fails first), and a
    validated edit whose title another post carries (the flush before
    the user query fails first). *)
Theorem load_user_missing_row_aborts_404 {hashing : PasswordHashing}
    (env : environ) (db : Database) (user_id : Z) :
  ~ In user_id (map User.id (users db)) ->
  current_user db (Some user_id) = Raise (HTTPException 404) /\
  current_user db (Some user_id) <> Return AnonymousUserMixin /\
  forall r,
    (forall form, r <> Register (POST form true)) ->
    (forall form, r <> Login (POST form true)) ->
    (forall post_id f, r = ShowPost post_id f -> post_id <= sqlite_max_integer) ->
    (forall post_id f, r = EditPost post_id f -> post_id <= sqlite_max_integer) ->
    (forall post_id form q,
       r = EditPost post_id (POST form true) ->
       In q (blog_posts db) -> BlogPost.id q <> post_id ->
       BlogPost.title q <> form_title form) ->
    full_dispatch_request env db (Some user_id) r
    = Result (error_page (HTTPException 404)) db (Some user_id) /\
    status_code (resp (full_dispatch_request env db (Some user_id) r)) = 404.
Proof.
  intros Habs.
  assert (Hload : load_user db user_id = Raise (HTTPException 404)).
  { unfold load_user. now apply select_or_404_absent. }
  assert (Hcu : current_user db (Some user_id) = Raise (HTTPException 404)).
  { simpl. now rewrite Hload. }
  split; [assumption|]. split; [rewrite Hcu; discriminate|].
  intros r Hregister Hlogin Hshow Hedit Htitle.
  assert (Hres : full_dispatch_request env db (Some user_id) r
                 = Result (error_page (HTTPException 404)) db (Some user_id)).
  { unfold full_dispatch_request.
    destruct r as [f|f| | |post_id f|f|post_id f|post_id| | ]; simpl.
    - unfold register. destruct f as [|form [|]]; simpl.
      + unfold render_template. now rewrite Hcu.
      + now destruct (Hregister form).
      + unfold render_template. now rewrite Hcu.
    - unfold login. destruct f as [|form [|]]; simpl.
      + unfold render_template. now rewrite Hcu.
      + now destruct (Hlogin form).
      + unfold render_template. now rewrite Hcu.
    - unfold logout. now rewrite Hcu.
    - unfold get_all_posts, render_template. now rewrite Hcu.
    - unfold show_post.
      rewrite get_or_404_in_range by now apply (Hshow post_id f).
      destruct (select_or_404 BlogPost.id (blog_posts db) post_id) as [p|e] eqn:Hget;
        cbn [bind].
      + destruct (validate_on_submit f); unfold render_template; now rewrite Hcu.
      + apply select_or_404_Raise in Hget. now subst e.
    - unfold add_new_post, admin_only. now rewrite Hcu.
    - unfold edit_post.
      rewrite get_or_404_in_range by now apply (Hedit post_id f).
      destruct (select_or_404 BlogPost.id (blog_posts db) post_id) as [p|e] eqn:Hget;
        cbn [bind].
      + apply select_or_404_Return in Hget. destruct Hget as [_ Hid].
        destruct f as [|form [|]]; cbn [validate_on_submit].
        * unfold render_template. now rewrite Hcu.
        * unfold autoflush_title, current_user_after.
          replace (existsb _ (blog_posts db)) with false;
            [cbn [bind]; now rewrite Hload|].
          symmetry. destruct (existsb _ (blog_posts db)) eqn:Hex; [|reflexivity].
          apply existsb_exists in Hex. destruct Hex as [q [Hq Hboth]].
          apply andb_true_iff in Hboth. destruct Hboth as [Hne Heq].
          apply negb_true_iff, Z.eqb_neq in Hne. apply String.eqb_eq in Heq.
          exfalso. apply (Htitle post_id form q eq_refl Hq); congruence.
        * unfold render_template. now rewrite Hcu.
      + apply select_or_404_Raise in Hget. now subst e.
    - unfold delete_post, admin_only. now rewrite Hcu.
    - unfold about, render_template. now rewrite Hcu.
    - unfold contact, render_template. now rewrite Hcu. }
  split; [assumption|]. now rewrite Hres.
Qed.

Lemma load_user_missing_row_aborts_404_witness :
  ~ In 5 (map User.id (users Demo.blog)) /\
  current_user Demo.blog (Some 5) = Raise (HTTPException 404) /\
  full_dispatch_request (hashing := Demo.hashing) Demo.env Demo.blog (Some 5)
    (ShowPost 1 (POST Demo.nice true))
  = Result (error_page (HTTPException 404)) Demo.blog (Some 5).
Proof.
  assert (Habs : ~ In 5 (map User.id (users Demo.blog))).
  { simpl. intros [H|[]]. discriminate H. }
  destruct (load_user_missing_row_aborts_404 (hashing := Demo.hashing)
              Demo.env Demo.blog 5 Habs) as [Hcu [_ Hreq]].
  split; [assumption|]. split; [assumption|].
  apply (Hreq (ShowPost 1 (POST Demo.nice true))).
  - discriminate.
  - discriminate.
  - intros post_id f H. injection H as <- _. unfold sqlite_max_integer. lia.
  - discriminate.
  - discriminate.
Defined.

(** ** The administrator guard *)

(** A caller who is logged in and is not user 1 gets 403 on both
    administrator routes, and nothing is written. *)
Lemma admin_only_forbids_other_users {hashing : PasswordHashing}
    (env : environ) (db : Database) (s : session) (u : User.t) (r : request) :
  current_user db s = Return (LoggedIn u) ->
  User.id u <> 1 ->
  (exists f, r = NewPost f) \/ (exists post_id, r = Delete post_id) ->
  full_dispatch_request env db s r = Result (error_page (HTTPException 403)) db s.
Proof.
  intros Hcu Hid Hr. unfold full_dispatch_request.
  apply Z.eqb_neq in Hid.
  destruct Hr as [[f ->]|[post_id ->]]; simpl;
    unfold add_new_post, delete_post, admin_only;
    rewrite Hcu; simpl; now rewrite Hid.
Qed.

(** C3, at the anonymous caller.  Without a session [current_user] is
    the anonymous object, which has no attribute [id]: the comparison
    [current_user.id != 1] of [admin_only] raises [AttributeError] before
    it can reach [abort(403)], and the request ends with status 500 on
    both administrator routes.  Nothing is written. *)
Theorem admin_only_anonymous_is_500 {hashing : PasswordHashing}
    (env : environ) (db : Database) (f : submission CreateBlogPostForm)
    (post_id : Z) :
  full_dispatch_request env db None (NewPost f)
  = Result (error_page (AttributeError "AnonymousUserMixin" "id")) db None /\
  full_dispatch_request env db None (Delete post_id)
  = Result (error_page (AttributeError "AnonymousUserMixin" "id")) db None /\
  status_code (resp (full_dispatch_request env db None (NewPost f))) = 500 /\
  status_code (resp (full_dispatch_request env db None (Delete post_id))) = 500.
Proof.
  repeat split.
Qed.

(** ** Deleting a post *)

(** The post with the given id is gone after the table operation. *)
Lemma delete_BlogPost_gone (db : Database) (p : BlogPost.t) :
  ~ In (BlogPost.id p) (map BlogPost.id (blog_posts (delete_BlogPost db p))).
Proof.
  simpl. intros Hin. apply in_map_iff in Hin. destruct Hin as [q [Hid Hq]].
  apply filter_In in Hq. destruct Hq as [_ Hne].
  apply negb_true_iff, Z.eqb_neq in Hne. contradiction.
Qed.

(** C1, as stated, fails: in the worked run the administrator deletes
    post 1, the request succeeds, and the comment written on post 1 is
    still a row of [comments] (its [post_id] is now NULL). *)
Lemma delete_post_keeps_comment_example :
  In Demo.hello_post (blog_posts Demo.blog) /\
  In Demo.nice_comment (comments Demo.blog) /\
  Comment.post_id Demo.nice_comment = Some (BlogPost.id Demo.hello_post) /\
  resp (full_dispatch_request (hashing := Demo.hashing) Demo.env Demo.blog (Some 1)
          (Delete 1)) = redirect ep_get_all_posts None /\
  get_or_404 Comment.id
    (comments (db_after (full_dispatch_request (hashing := Demo.hashing) Demo.env
                           Demo.blog (Some 1) (Delete 1))))
    (Comment.id Demo.nice_comment)
  = Return (Comment.Build 1 "Nice post" (Some 1) None).
Proof.
  repeat split; simpl; tauto.
Qed.

(** C1, amended.  When the administrator deletes an existing post, the
    post is gone (looking it up is a 404), and no comment is removed: a
    comment whose parent was that post stays with its parent set to
    NULL, every other comment stays as it was, and the ids of the
    comments table are the same as before. *)
Theorem delete_post_detaches_comments {hashing : PasswordHashing}
    (env : environ) (db : Database) (s : session) (admin : User.t)
    (post_id : Z) (p : BlogPost.t) :
  current_user db s = Return (LoggedIn admin) ->
  User.id admin = 1 ->
  get_or_404 BlogPost.id (blog_posts db) post_id = Return p ->
  resp (full_dispatch_request env db s (Delete post_id))
  = redirect ep_get_all_posts None /\
  get_or_404 BlogPost.id
    (blog_posts (db_after (full_dispatch_request env db s (Delete post_id)))) post_id
  = Raise (HTTPException 404) /\
  (forall c, In c (comments db) -> Comment.post_id c = Some post_id ->
     In (Comment.set_post_id c None)
        (comments (db_after (full_dispatch_request env db s (Delete post_id))))) /\
  (forall c, In c (comments db) -> Comment.post_id c <> Some post_id ->
     In c (comments (db_after (full_dispatch_request env db s (Delete post_id))))) /\
  map Comment.id (comments (db_after (full_dispatch_request env db s (Delete post_id))))
  = map Comment.id (comments db).
Proof.
  intros Hcu Hadmin Hget.
  assert (Hres : full_dispatch_request env db s (Delete post_id)
                 = Result (redirect ep_get_all_posts None) (delete_BlogPost db p) s).
  { unfold full_dispatch_request. simpl. unfold delete_post, admin_only.
    rewrite Hcu. simpl. rewrite Hadmin. simpl. now rewrite Hget. }
  rewrite Hres. simpl resp. simpl db_after.
  destruct (get_or_404_Return_range _ _ _ _ Hget) as [Hrange _].
  apply get_or_404_Return in Hget. destruct Hget as [Hp Hid].
  split; [reflexivity|]. split; [|split; [|split]].
  - apply get_or_404_absent; [assumption|]. rewrite <- Hid. apply delete_BlogPost_gone.
  - intros c Hc Hfk. simpl. apply in_map_iff. exists c. split; [|assumption].
    rewrite Hfk, Hid. simpl. now rewrite Z.eqb_refl.
  - intros c Hc Hfk. simpl. apply in_map_iff. exists c. split; [|assumption].
    destruct (refers_to (Comment.post_id c) (BlogPost.id p)) eqn:Href; [|reflexivity].
    exfalso. apply Hfk. destruct (Comment.post_id c) as [k|]; simpl in Href;
      [|discriminate]. apply Z.eqb_eq in Href. congruence.
  - simpl. rewrite map_map. apply map_ext.
    intros c. now destruct (refers_to _ _).
Qed.

Lemma delete_post_detaches_comments_witness :
  current_user Demo.blog (Some 1) = Return (LoggedIn Demo.admin) /\
  get_or_404 BlogPost.id (blog_posts Demo.blog) 1 = Return Demo.hello_post /\
  get_or_404 BlogPost.id
    (blog_posts (db_after (full_dispatch_request (hashing := Demo.hashing) Demo.env
                             Demo.blog (Some 1) (Delete 1)))) 1
  = Raise (HTTPException 404) /\
  In (Comment.set_post_id Demo.nice_comment None)
     (comments (db_after (full_dispatch_request (hashing := Demo.hashing) Demo.env
                            Demo.blog (Some 1) (Delete 1)))).
Proof.
  assert (Hcu : current_user Demo.blog (Some 1) = Return (LoggedIn Demo.admin))
    by reflexivity.
  assert (Hget : get_or_404 BlogPost.id (blog_posts Demo.blog) 1
                 = Return Demo.hello_post) by reflexivity.
  destruct (delete_post_detaches_comments (hashing := Demo.hashing) Demo.env
              Demo.blog (Some 1) Demo.admin 1 Demo.hello_post Hcu eq_refl Hget)
    as [_ [Hgone [Hkept _]]].
  split; [assumption|]. split; [assumption|]. split; [assumption|].
  apply Hkept; simpl; tauto.
Defined.

(** ** Referential integrity of comments *)

Definition has_author (db : Database) (c : Comment.t) (u : User.t) : Prop :=
  In u (users db) /\ Comment.author_id c = Some (User.id u).

Definition has_parent (db : Database) (c : Comment.t) (p : BlogPost.t) : Prop :=
  In p (blog_posts db) /\ Comment.post_id c = Some (BlogPost.id p).

(** C2, as stated, fails: the worked run is a reachable database in
    which every comment has a parent post; after the administrator
    deletes post 1 the database is still reachable and its comment has
    no parent post at all. *)
Lemma delete_post_orphans_comment_example :
  reachable (hashing := Demo.hashing) Demo.blog /\
  (forall c, In c (comments Demo.blog) -> exists p, has_parent Demo.blog c p) /\
  reachable (hashing := Demo.hashing)
    (db_after (full_dispatch_request (hashing := Demo.hashing) Demo.env Demo.blog
                 (Some 1) (Delete 1))) /\
  exists c,
    In c (comments (db_after (full_dispatch_request (hashing := Demo.hashing)
                                Demo.env Demo.blog (Some 1) (Delete 1)))) /\
    ~ exists p,
        has_parent (db_after (full_dispatch_request (hashing := Demo.hashing)
                                Demo.env Demo.blog (Some 1) (Delete 1))) c p.
Proof.
  split; [apply Demo.blog_reachable|]. split; [|split].
  - intros c [<-|[]]. exists Demo.hello_post. split; simpl; tauto.
  - constructor. apply Demo.blog_reachable.
  - exists (Comment.Build 1 "Nice post" (Some 1) None). split.
    + simpl. tauto.
    + intros [p [_ Hfk]]. discriminate Hfk.
Qed.

(** C2, amended.  In every database the application can reach, each
    comment has exactly one author among the rows of [users], and its
    parent is either NULL or exactly one row of [blog_posts].  Reachable
    databases are closed under every request, so every operation
    preserves this. *)
Theorem reachable_comment_references {hashing : PasswordHashing}
    (db : Database) (c : Comment.t) :
  reachable db ->
  In c (comments db) ->
  (exists! u, has_author db c u) /\
  (Comment.post_id c = None \/ exists! p, has_parent db c p).
Proof.
  intros Hreach Hc. apply reachable_consistent in Hreach.
  destruct Hreach as [Hu Hp _ _ _ _ Hca Hcp]. split.
  - destruct (Hca c Hc) as [u [Hin Hfk]]. exists u. split; [now split|].
    intros v [Hv Hfk']. eapply NoDup_map_inj; eauto. congruence.
  - destruct (Hcp c Hc) as [Hnull|[p [Hin Hfk]]]; [now left|]. right.
    exists p. split; [now split|].
    intros q [Hq Hfk']. eapply NoDup_map_inj; eauto. congruence.
Qed.

Lemma reachable_comment_references_witness :
  (exists! u, has_author Demo.blog Demo.nice_comment u) /\
  (Comment.post_id Demo.nice_comment = None \/
   exists! p, has_parent Demo.blog Demo.nice_comment p).
Proof.
  apply (reachable_comment_references (hashing := Demo.hashing)).
  - apply Demo.blog_reachable.
  - simpl. tauto.
Defined.

(** ** Creating posts *)

(** C4, as stated, fails: in the worked run the administrator submits a
    post titled like an existing one.  The handler makes no check of its
    own; the commit raises the UNIQUE violation, nothing catches it, and
    the answer is the server error page (status 500), not a flashed
    message with a redirect nor the form shown again. *)
Lemma add_new_post_duplicate_title_example :
  In Demo.hello_post (blog_posts Demo.blog) /\
  BlogPost.title Demo.hello_post = form_title Demo.hello /\
  resp (full_dispatch_request (hashing := Demo.hashing) Demo.env Demo.blog (Some 1)
          (NewPost (POST Demo.hello true)))
  = error_page (IntegrityError "blog_posts.title") /\
  status_code (resp (full_dispatch_request (hashing := Demo.hashing) Demo.env
                       Demo.blog (Some 1) (NewPost (POST Demo.hello true)))) = 500 /\
  (forall location message,
     resp (full_dispatch_request (hashing := Demo.hashing) Demo.env Demo.blog (Some 1)
             (NewPost (POST Demo.hello true)))
     <> redirect location message) /\
  (forall template ctx,
     resp (full_dispatch_request (hashing := Demo.hashing) Demo.env Demo.blog (Some 1)
             (NewPost (POST Demo.hello true)))
     <> rendered template ctx).
Proof.
  repeat split; simpl; try tauto; discriminate.
Qed.

(** C4, amended.  When a post with title [t] exists and the
    administrator submits a new post with title [t], the commit is
    rejected by the UNIQUE constraint on [title]: the request ends with
    the unhandled integrity error (status 500), and the database is
    unchanged, so no second post with title [t] is stored. *)
Theorem add_new_post_duplicate_title {hashing : PasswordHashing}
    (env : environ) (db : Database) (s : session) (admin : User.t)
    (q : BlogPost.t) (form : CreateBlogPostForm) :
  current_user db s = Return (LoggedIn admin) ->
  User.id admin = 1 ->
  In q (blog_posts db) ->
  BlogPost.title q = form_title form ->
  full_dispatch_request env db s (NewPost (POST form true))
  = Result (error_page (IntegrityError "blog_posts.title")) db s /\
  status_code (resp (full_dispatch_request env db s (NewPost (POST form true)))) = 500 /\
  blog_posts (db_after (full_dispatch_request env db s (NewPost (POST form true))))
  = blog_posts db.
Proof.
  intros Hcu Hadmin Hq Htitle.
  assert (Hres : full_dispatch_request env db s (NewPost (POST form true))
                 = Result (error_page (IntegrityError "blog_posts.title")) db s).
  { unfold full_dispatch_request. simpl. unfold add_new_post, admin_only.
    rewrite Hcu. simpl. rewrite Hadmin. simpl.
    unfold add_BlogPost. rewrite <- Htitle.
    now rewrite (existsb_eqb_present BlogPost.title (blog_posts db) q Hq). }
  rewrite Hres. repeat split.
Qed.

Lemma add_new_post_duplicate_title_witness :
  full_dispatch_request (hashing := Demo.hashing) Demo.env Demo.blog (Some 1)
    (NewPost (POST Demo.hello true))
  = Result (error_page (IntegrityError "blog_posts.title")) Demo.blog (Some 1).
Proof.
  apply (add_new_post_duplicate_title (hashing := Demo.hashing) Demo.env Demo.blog
           (Some 1) Demo.admin Demo.hello_post Demo.hello).
  - reflexivity.
  - reflexivity.
  - simpl. tauto.
  - reflexivity.
Defined.

Lemma existsb_eqb_none {A : Type} (f : A -> string) (l : list A) (k : string) :
  (forall a, In a l -> f a <> k) ->
  existsb (fun a => String.eqb (f a) k) l = false.
Proof.
  intros Hnone. destruct (existsb _ l) eqn:Hex; [|reflexivity].
  apply existsb_exists in Hex. destruct Hex as [a [Hin Heq]].
  apply String.eqb_eq in Heq. now apply Hnone in Hin.
Qed.

Lemma select_or_404_snoc_fresh {A : Type} (pk : A -> Z) (table : list A) (r : A) :
  ~ In (pk r) (map pk table) -> select_or_404 pk (table ++ [r]) (pk r) = Return r.
Proof.
  unfold select_or_404. induction table as [|a table IH]; simpl; intros Hfresh.
  - now rewrite Z.eqb_refl.
  - destruct (pk a =? pk r) eqn:Ha.
    + apply Z.eqb_eq in Ha. tauto.
    + apply IH. tauto.
Qed.

Lemma get_or_404_snoc_fresh {A : Type} (pk : A -> Z) (table : list A) (r : A) :
  pk r <= sqlite_max_integer ->
  ~ In (pk r) (map pk table) -> get_or_404 pk (table ++ [r]) (pk r) = Return r.
Proof.
  intros Hrange Hfresh. rewrite get_or_404_in_range by assumption.
  now apply select_or_404_snoc_fresh.
Qed.

(** ** The display format of dates *)

(** The format the data model gives for a publication date ("June 03,
    2025"): the English name of the month, a space, the day of the month
    on two digits, a comma and a space, the year on four digits.  It is
    written out digit by digit, without [datetime.strftime]. *)
Definition digit (n : nat) : ascii := ascii_of_nat (48 + n mod 10).

Definition month_names : list string :=
  [ "January"; "February"; "March"; "April"; "May"; "June"; "July"; "August";
    "September"; "October"; "November"; "December" ].

Definition display_format (d : datetime.date) : string :=
  nth (datetime.month d - 1) month_names "" ++ " " ++
  String (digit (datetime.day d / 10)) (String (digit (datetime.day d)) "") ++ ", " ++
  String (digit (datetime.year d / 1000))
    (String (digit (datetime.year d / 100))
       (String (digit (datetime.year d / 10))
          (String (digit (datetime.year d)) ""))).

(** The dates [date.today()] returns: a month from 1 to 12, a day from 1
    to 31, and a year of four digits. *)
Definition calendar_date (d : datetime.date) : Prop :=
  (1 <= datetime.month d <= 12 /\ 1 <= datetime.day d <= 31 /\
   1000 <= datetime.year d < 10 * 1000)%nat.

Lemma forallb_seq (P : nat -> bool) (lo len n : nat) :
  forallb P (seq lo len) = true -> (lo <= n < lo + len)%nat -> P n = true.
Proof.
  intros Hall Hn. apply (proj1 (forallb_forall P (seq lo len)) Hall).
  apply in_seq. lia.
Qed.

Lemma month_name_display (m : nat) :
  (1 <= m <= 12)%nat -> datetime.month_name m = nth (m - 1) month_names "".
Proof.
  intros Hm.
  do 13 (destruct m as [|m]; [try lia; reflexivity|]). lia.
Qed.

Lemma day_of_month_display (d : nat) :
  (1 <= d <= 31)%nat ->
  datetime.day_of_month d = String (digit (d / 10)) (String (digit d) "").
Proof.
  intros Hd. apply String.eqb_eq.
  apply (forallb_seq
           (fun n => String.eqb (datetime.day_of_month n)
                       (String (digit (n / 10)) (String (digit n) "")))
           1 31 d); [vm_compute; reflexivity | lia].
Qed.

Definition digit_uint (k : nat) (u : Decimal.uint) : Decimal.uint :=
  match k with
  | 0 => Decimal.D0 u | 1 => Decimal.D1 u | 2 => Decimal.D2 u | 3 => Decimal.D3 u
  | 4 => Decimal.D4 u | 5 => Decimal.D5 u | 6 => Decimal.D6 u | 7 => Decimal.D7 u
  | 8 => Decimal.D8 u | _ => Decimal.D9 u
  end%nat.

Lemma of_uint_acc_digit (k : nat) (u : Decimal.uint) (acc : nat) :
  (k < 10)%nat ->
  Nat.of_uint_acc (digit_uint k u) acc = Nat.of_uint_acc u (k + 10 * acc)%nat.
Proof.
  intros Hk.
  do 10 (destruct k as [|k];
         [cbn [digit_uint Nat.of_uint_acc]; rewrite Nat.tail_mul_spec; reflexivity|]).
  lia.
Qed.

Lemma string_of_digit (k : nat) (u : Decimal.uint) :
  (k < 10)%nat ->
  NilEmpty.string_of_uint (digit_uint k u)
  = String (digit k) (NilEmpty.string_of_uint u).
Proof.
  intros Hk. do 10 (destruct k as [|k]; [reflexivity|]). lia.
Qed.

Lemma digit_mod (n : nat) : digit (n mod 10) = digit n.
Proof. unfold digit. now rewrite Nat.Div0.mod_mod. Qed.

Lemma decimal_year_display (y : nat) :
  (1000 <= y < 10 * 1000)%nat ->
  datetime.decimal y
  = String (digit (y / 1000))
      (String (digit (y / 100)) (String (digit (y / 10)) (String (digit y) ""))).
Proof.
  intros Hy.
  set (a := (y / 1000)%nat). set (b := ((y / 100) mod 10)%nat).
  set (c := ((y / 10) mod 10)%nat). set (d := (y mod 10)%nat).
  assert (Ha : (1 <= a < 10)%nat).
  { unfold a. split;
      [apply Nat.div_le_lower_bound; lia | apply Nat.Div0.div_lt_upper_bound; lia]. }
  assert (Hb : (b < 10)%nat) by (apply Nat.mod_upper_bound; lia).
  assert (Hc : (c < 10)%nat) by (apply Nat.mod_upper_bound; lia).
  assert (Hd : (d < 10)%nat) by (apply Nat.mod_upper_bound; lia).
  set (u := digit_uint a (digit_uint b (digit_uint c (digit_uint d Decimal.Nil)))).
  assert (Hu : Nat.of_uint u = y).
  { unfold Nat.of_uint, u. rewrite !of_uint_acc_digit by lia. cbn [Nat.of_uint_acc].
    unfold a, b, c, d.
    pose proof (Nat.div_mod_eq y 10). pose proof (Nat.div_mod_eq (y / 10) 10).
    replace (y / 100)%nat with (y / 10 / 10)%nat in *
      by (rewrite Nat.Div0.div_div; reflexivity).
    replace (y / 1000)%nat with (y / 10 / 10 / 10)%nat in *
      by (rewrite !Nat.Div0.div_div; reflexivity).
    pose proof (Nat.div_mod_eq (y / 10 / 10) 10).
    assert (Hsmall : ((y / 10 / 10 / 10) mod 10 = y / 10 / 10 / 10)%nat).
    { apply Nat.mod_small.
      replace (y / 10 / 10 / 10)%nat with (y / 1000)%nat
        by (rewrite !Nat.Div0.div_div; reflexivity).
      fold a. lia. }
    lia. }
  unfold datetime.decimal. rewrite <- Hu at 1. rewrite Unsigned.to_of.
  assert (Hnorm : Decimal.unorm u = u).
  { unfold u. destruct a as [|a']; [lia|].
    do 9 (destruct a' as [|a']; [reflexivity|]). lia. }
  rewrite Hnorm.
  assert (Hnz : NilZero.string_of_uint u = NilEmpty.string_of_uint u).
  { unfold u. destruct a as [|a']; [lia|].
    do 9 (destruct a' as [|a']; [reflexivity|]). lia. }
  rewrite Hnz. unfold u. rewrite !string_of_digit by lia.
  cbn [NilEmpty.string_of_uint].
  unfold b, c, d. now rewrite !digit_mod.
Qed.

Lemma strftime_display_format (d : datetime.date) :
  calendar_date d -> datetime.strftime d = display_format d.
Proof.
  intros [Hm [Hd Hy]]. unfold datetime.strftime, display_format.
  now rewrite (month_name_display _ Hm), (day_of_month_display _ Hd),
    (decimal_year_display _ Hy).
Qed.

(** C9.  The administrator submits, on a calendar day, a post whose
    title no post carries; the post is stored under the next id of the
    table, and looking that id up (as [/post/<id>] does) gives a post
    with exactly the submitted title, subtitle, body and image URL, with
    the day of the request in the display format (month name, two-digit
    day, four-digit year) as its date, and with the administrator (user
    1) as its author. *)
Theorem add_new_post_then_show_post {hashing : PasswordHashing}
    (env env' : environ) (db : Database) (s : session) (admin : User.t)
    (form : CreateBlogPostForm) :
  current_user db s = Return (LoggedIn admin) ->
  User.id admin = 1 ->
  (forall q, In q (blog_posts db) -> BlogPost.title q <> form_title form) ->
  calendar_date (today env) ->
  next_rowid (map BlogPost.id (blog_posts db)) <= sqlite_max_integer ->
  resp (full_dispatch_request env db s (NewPost (POST form true)))
  = redirect ep_get_all_posts None /\
  blog_posts (db_after (full_dispatch_request env db s (NewPost (POST form true))))
  = (blog_posts db ++
     [ BlogPost.Build (next_rowid (map BlogPost.id (blog_posts db))) (Some 1)
         (form_title form) (form_subtitle form) (display_format (today env))
         (form_body form) (form_img_url form) ])%list /\
  get_or_404 BlogPost.id
    (blog_posts (db_after (full_dispatch_request env db s (NewPost (POST form true)))))
    (next_rowid (map BlogPost.id (blog_posts db)))
  = Return
      (BlogPost.Build (next_rowid (map BlogPost.id (blog_posts db))) (Some 1)
         (form_title form) (form_subtitle form) (display_format (today env))
         (form_body form) (form_img_url form)) /\
  resp (full_dispatch_request env'
          (db_after (full_dispatch_request env db s (NewPost (POST form true))))
          (session_after (full_dispatch_request env db s (NewPost (POST form true))))
          (ShowPost (next_rowid (map BlogPost.id (blog_posts db))) GET))
  = rendered "post.html"
      (post
         (BlogPost.Build (next_rowid (map BlogPost.id (blog_posts db))) (Some 1)
            (form_title form) (form_subtitle form) (display_format (today env))
            (form_body form) (form_img_url form))).
Proof.
  intros Hcu Hadmin Hfresh Hdate Hrange.
  set (new_post := BlogPost.Build (next_rowid (map BlogPost.id (blog_posts db)))
                     (Some 1) (form_title form) (form_subtitle form)
                     (display_format (today env)) (form_body form)
                     (form_img_url form)).
  assert (Hres : full_dispatch_request env db s (NewPost (POST form true))
                 = Result (redirect ep_get_all_posts None)
                     {| users := users db;
                        blog_posts := blog_posts db ++ [new_post];
                        comments := comments db |} s).
  { unfold full_dispatch_request. simpl. unfold add_new_post, admin_only.
    rewrite Hcu. simpl. rewrite Hadmin. simpl.
    unfold add_BlogPost. rewrite (existsb_eqb_none _ _ _ Hfresh). simpl.
    rewrite Hadmin. unfold new_post.
    now rewrite (strftime_display_format _ Hdate). }
  rewrite Hres. simpl resp. simpl db_after. simpl session_after. simpl blog_posts.
  assert (Hget : get_or_404 BlogPost.id (blog_posts db ++ [new_post])%list
                   (next_rowid (map BlogPost.id (blog_posts db))) = Return new_post).
  { apply (get_or_404_snoc_fresh BlogPost.id (blog_posts db) new_post).
    - exact Hrange.
    - apply next_rowid_fresh. }
  split; [reflexivity|]. split; [reflexivity|]. split; [assumption|].
  unfold full_dispatch_request. simpl. unfold show_post. simpl blog_posts.
  rewrite Hget. simpl. unfold render_template.
  change (current_user {| users := users db;
                          blog_posts := blog_posts db ++ [new_post];
                          comments := comments db |} s)
    with (current_user db s).
  now rewrite Hcu.
Qed.

Lemma add_new_post_then_show_post_witness :
  get_or_404 BlogPost.id
    (blog_posts (db_after (full_dispatch_request (hashing := Demo.hashing) Demo.env
                             Demo.blog (Some 1)
                             (NewPost (POST (Build_CreateBlogPostForm "T" "S" "U" "B")
                                        true)))))
    3
  = Return (BlogPost.Build 3 (Some 1) "T" "S" "June 03, 2025" "B" "U").
Proof.
  apply (add_new_post_then_show_post (hashing := Demo.hashing) Demo.env Demo.env
           Demo.blog (Some 1) Demo.admin (Build_CreateBlogPostForm "T" "S" "U" "B")).
  - reflexivity.
  - reflexivity.
  - simpl. intros q [<-|[<-|[]]]; discriminate.
  - unfold calendar_date. simpl. lia.
  - vm_compute. discriminate.
Defined.

(** ** Registration and login *)

Lemma select_user_by_email_present (db : Database) (u : User.t) :
  NoDup (map User.email (users db)) -> In u (users db) ->
  select_user_by_email db (User.email u) = Some u.
Proof.
  intros Hnd Hin. unfold select_user_by_email.
  destruct (find _ (users db)) as [v|] eqn:Hfind.
  - apply find_some in Hfind. destruct Hfind as [Hv Heq].
    apply String.eqb_eq in Heq. f_equal. eapply NoDup_map_inj; eauto.
  - apply (find_none _ _ Hfind) in Hin. rewrite String.eqb_refl in Hin. discriminate.
Qed.

Lemma select_user_by_email_absent (db : Database) (e : string) :
  (forall u, In u (users db) -> User.email u <> e) ->
  select_user_by_email db e = None.
Proof.
  intros Hnone. unfold select_user_by_email.
  destruct (find _ (users db)) as [v|] eqn:Hfind; [|reflexivity].
  apply find_some in Hfind. destruct Hfind as [Hv Heq].
  apply String.eqb_eq in Heq. now apply Hnone in Hv.
Qed.

Lemma filter_email_none (l : list User.t) (e : string) :
  ~ In e (map User.email l) ->
  filter (fun v => String.eqb (User.email v) e) l = [].
Proof.
  induction l as [|a l IH]; simpl; intros Habs; [reflexivity|].
  destruct (String.eqb (User.email a) e) eqn:Ha.
  - apply String.eqb_eq in Ha. tauto.
  - apply IH. tauto.
Qed.

Lemma filter_email_singleton (l : list User.t) (u : User.t) :
  NoDup (map User.email l) -> In u l ->
  filter (fun v => String.eqb (User.email v) (User.email u)) l = [u].
Proof.
  induction l as [|a l IH]; simpl; intros Hnd Hin; [contradiction|].
  inversion Hnd as [|? ? Ha Hnd']; subst.
  destruct Hin as [->|Hin].
  - rewrite String.eqb_refl. f_equal. now apply filter_email_none.
  - destruct (String.eqb (User.email a) (User.email u)) eqn:Hau.
    + apply String.eqb_eq in Hau. exfalso. apply Ha. rewrite Hau. now apply in_map.
    + now apply IH.
Qed.

(** C5.  In a reachable database: registering with an email some user
    already has flashes the "already signed up" message and redirects to
    the login page, stores nothing (that user is still the only one with
    the email) and leaves the session cookie as it came; registering
    with an email nobody has stores one new user, whose password column
    is the salted hash of the submitted password, and logs that user in:
    the session resolves to the new row. *)
Theorem register_duplicate_or_fresh {hashing : PasswordHashing}
    (env : environ) (db : Database) (s : session) (form : RegistrationForm) :
  reachable db ->
  (forall u, In u (users db) -> User.email u = reg_email form ->
     full_dispatch_request env db s (Register (POST form true))
     = Result
         (redirect ep_login
            (Some "You've already signed up with that email, log in instead!"))
         db s /\
     filter (fun v => String.eqb (User.email v) (reg_email form))
       (users (db_after (full_dispatch_request env db s (Register (POST form true)))))
     = [u]) /\
  ((forall u, In u (users db) -> User.email u <> reg_email form) ->
     full_dispatch_request env db s (Register (POST form true))
     = Result (redirect ep_get_all_posts None)
         {| users :=
              users db ++
              [ User.Build (next_rowid (map User.id (users db))) (reg_email form)
                  (generate_password_hash (reg_password form) "pbkdf2:sha256"
                     (salt env))
                  (reg_name form) ];
            blog_posts := blog_posts db;
            comments := comments db |}
         (Some (next_rowid (map User.id (users db)))) /\
     current_user
       (db_after (full_dispatch_request env db s (Register (POST form true))))
       (session_after (full_dispatch_request env db s (Register (POST form true))))
     = Return
         (LoggedIn
            (User.Build (next_rowid (map User.id (users db))) (reg_email form)
               (generate_password_hash (reg_password form) "pbkdf2:sha256" (salt env))
               (reg_name form)))).
Proof.
  intros Hreach. apply reachable_consistent in Hreach.
  destruct Hreach as [_ _ _ Hemail _ _ _ _]. split.
  - intros u Hu He.
    assert (Hres : full_dispatch_request env db s (Register (POST form true))
                   = Result
                       (redirect ep_login
                          (Some "You've already signed up with that email, log in instead!"))
                       db s).
    { unfold full_dispatch_request. simpl. unfold register. simpl.
      rewrite <- He. now rewrite (select_user_by_email_present db u Hemail Hu). }
    rewrite Hres. split; [reflexivity|]. simpl. rewrite <- He.
    now apply filter_email_singleton.
  - intros Hfresh.
    set (new_user := User.Build (next_rowid (map User.id (users db))) (reg_email form)
                       (generate_password_hash (reg_password form) "pbkdf2:sha256"
                          (salt env))
                       (reg_name form)).
    assert (Hres : full_dispatch_request env db s (Register (POST form true))
                   = Result (redirect ep_get_all_posts None)
                       {| users := users db ++ [new_user];
                          blog_posts := blog_posts db;
                          comments := comments db |}
                       (Some (next_rowid (map User.id (users db))))).
    { unfold full_dispatch_request. simpl. unfold register. simpl.
      rewrite (select_user_by_email_absent db _ Hfresh).
      unfold add_User. now rewrite (existsb_eqb_none _ _ _ Hfresh). }
    rewrite Hres. split; [reflexivity|].
    cbn [db_after session_after current_user]. unfold load_user. cbn [users].
    change (next_rowid (map User.id (users db))) with (User.id new_user) at 1.
    rewrite (select_or_404_snoc_fresh User.id (users db) new_user); [reflexivity|].
    apply next_rowid_fresh.
Qed.

Lemma register_duplicate_or_fresh_witness :
  (full_dispatch_request (hashing := Demo.hashing) Demo.env Demo.blog None
     (Register (POST Demo.admin_form true))
   = Result
       (redirect ep_login
          (Some "You've already signed up with that email, log in instead!"))
       Demo.blog None /\
   filter (fun v => String.eqb (User.email v) "admin@x.com")
     (users (db_after (full_dispatch_request (hashing := Demo.hashing) Demo.env
                         Demo.blog None (Register (POST Demo.admin_form true)))))
   = [Demo.admin]) /\
  (full_dispatch_request (hashing := Demo.hashing) Demo.env Demo.blog None
     (Register (POST Demo.reader_form true))
   = Result (redirect ep_get_all_posts None) Demo.blog_with_reader (Some 2) /\
   current_user
     (db_after (full_dispatch_request (hashing := Demo.hashing) Demo.env Demo.blog
                  None (Register (POST Demo.reader_form true))))
     (session_after (full_dispatch_request (hashing := Demo.hashing) Demo.env
                       Demo.blog None (Register (POST Demo.reader_form true))))
   = Return (LoggedIn Demo.reader)).
Proof.
  split.
  - apply (register_duplicate_or_fresh (hashing := Demo.hashing) Demo.env Demo.blog
             None Demo.admin_form Demo.blog_reachable).
    + simpl. tauto.
    + reflexivity.
  - apply (register_duplicate_or_fresh (hashing := Demo.hashing) Demo.env Demo.blog
             None Demo.reader_form Demo.blog_reachable).
    simpl. intros u [<-|[]]. discriminate.
Defined.

(** C6.  In a reachable database, for a submitted email and password:
    when no user has the email, the "does not exist" message is flashed
    with a redirect to the login page; when the user with that email has
    a hash the password does not verify against, the "password
    incorrect" message is flashed likewise; when it verifies, the user
    is logged in and the session resolves to that user.  Whatever the
    request to [/login] is, the three tables are as they were. *)
Theorem login_outcomes {hashing : PasswordHashing}
    (env : environ) (db : Database) (s : session) (form : LoginForm) :
  reachable db ->
  ((forall u, In u (users db) -> User.email u <> login_email form) ->
     full_dispatch_request env db s (Login (POST form true))
     = Result
         (redirect ep_login (Some "That email does not exist, please try again."))
         db s) /\
  (forall u, In u (users db) -> User.email u = login_email form ->
     check_password_hash (User.password u) (login_password form) = false ->
     full_dispatch_request env db s (Login (POST form true))
     = Result (redirect ep_login (Some "Password incorrect, please try again."))
         db s) /\
  (forall u, In u (users db) -> User.email u = login_email form ->
     check_password_hash (User.password u) (login_password form) = true ->
     full_dispatch_request env db s (Login (POST form true))
     = Result (redirect ep_get_all_posts None) db (Some (User.id u)) /\
     current_user db (Some (User.id u)) = Return (LoggedIn u)) /\
  (forall f, db_after (full_dispatch_request env db s (Login f)) = db).
Proof.
  intros Hreach. apply reachable_consistent in Hreach.
  destruct Hreach as [Hpk _ _ Hemail _ _ _ _].
  split; [|split; [|split]].
  - intros Hnone. unfold full_dispatch_request. simpl. unfold login. simpl.
    now rewrite (select_user_by_email_absent db _ Hnone).
  - intros u Hu He Hcheck. unfold full_dispatch_request. simpl. unfold login. simpl.
    rewrite <- He. rewrite (select_user_by_email_present db u Hemail Hu).
    now rewrite Hcheck.
  - intros u Hu He Hcheck. split.
    + unfold full_dispatch_request. simpl. unfold login. simpl.
      rewrite <- He. rewrite (select_user_by_email_present db u Hemail Hu).
      now rewrite Hcheck.
    + simpl. unfold load_user. now rewrite (select_or_404_present User.id _ u Hpk Hu).
  - intros f. unfold full_dispatch_request.
    destruct (dispatch_request env db s (Login f)) as [res|e] eqn:Hres;
      [|reflexivity].
    simpl in Hres. unfold login in Hres.
    destruct (validate_on_submit f) as [form'|].
    + destruct (select_user_by_email db (login_email form')) as [user|].
      * destruct (negb _); now injection Hres as <-.
      * now injection Hres as <-.
    + apply render_template_Return in Hres. now subst res.
Qed.

Lemma login_outcomes_witness :
  full_dispatch_request (hashing := Demo.hashing) Demo.env Demo.blog None
    (Login (POST (Build_LoginForm "nobody@x.com" "secret") true))
  = Result (redirect ep_login (Some "That email does not exist, please try again."))
      Demo.blog None /\
  full_dispatch_request (hashing := Demo.hashing) Demo.env Demo.blog None
    (Login (POST (Build_LoginForm "admin@x.com" "wrong") true))
  = Result (redirect ep_login (Some "Password incorrect, please try again."))
      Demo.blog None /\
  (full_dispatch_request (hashing := Demo.hashing) Demo.env Demo.blog None
     (Login (POST (Build_LoginForm "admin@x.com" "secret") true))
   = Result (redirect ep_get_all_posts None) Demo.blog (Some 1) /\
   current_user Demo.blog (Some 1) = Return (LoggedIn Demo.admin)).
Proof.
  split; [|split].
  - apply (login_outcomes (hashing := Demo.hashing) Demo.env Demo.blog None
             (Build_LoginForm "nobody@x.com" "secret") Demo.blog_reachable).
    simpl. intros u [<-|[]]. discriminate.
  - apply (proj1 (proj2 (login_outcomes (hashing := Demo.hashing) Demo.env Demo.blog
                           None (Build_LoginForm "admin@x.com" "wrong")
                           Demo.blog_reachable)) Demo.admin).
    + simpl. tauto.
    + reflexivity.
    + reflexivity.
  - apply (proj1 (proj2 (proj2 (login_outcomes (hashing := Demo.hashing) Demo.env
                                  Demo.blog None
                                  (Build_LoginForm "admin@x.com" "secret")
                                  Demo.blog_reachable))) Demo.admin).
    + simpl. tauto.
    + reflexivity.
    + reflexivity.
Defined.

(** ** Editing posts *)

Lemma get_or_404_rewritten (p' : BlogPost.t) (l : list BlogPost.t) :
  BlogPost.id p' <= sqlite_max_integer ->
  In (BlogPost.id p') (map BlogPost.id l) ->
  get_or_404 BlogPost.id
    (map (fun q => if BlogPost.id q =? BlogPost.id p' then p' else q) l)
    (BlogPost.id p')
  = Return p'.
Proof.
  intros Hrange. rewrite get_or_404_in_range by assumption.
  unfold select_or_404. induction l as [|a l IH]; simpl; intros Hin; [contradiction|].
  destruct (BlogPost.id a =? BlogPost.id p') eqn:Ha.
  - now rewrite Z.eqb_refl.
  - rewrite Ha. apply IH. destruct Hin as [Hin|Hin]; [|assumption].
    apply Z.eqb_neq in Ha. contradiction.
Qed.

Lemma autoflush_title_fresh (db : Database) (p : BlogPost.t) (title : string) :
  (forall q, In q (blog_posts db) -> BlogPost.id q <> BlogPost.id p ->
             BlogPost.title q <> title) ->
  autoflush_title db p title = Return tt.
Proof.
  intros Hnone. unfold autoflush_title.
  destruct (existsb _ (blog_posts db)) eqn:Hex; [|reflexivity].
  apply existsb_exists in Hex. destruct Hex as [q [Hq Hboth]].
  apply andb_true_iff in Hboth. destruct Hboth as [Hid Htitle].
  apply negb_true_iff, Z.eqb_neq in Hid. apply String.eqb_eq in Htitle.
  now apply (Hnone q Hq Hid) in Htitle.
Qed.

Lemma autoflush_title_taken (db : Database) (p q : BlogPost.t) (title : string) :
  In q (blog_posts db) -> BlogPost.id q <> BlogPost.id p -> BlogPost.title q = title ->
  autoflush_title db p title = Raise (IntegrityError "blog_posts.title").
Proof.
  intros Hq Hne Htitle. unfold autoflush_title.
  replace (existsb _ (blog_posts db)) with true; [reflexivity|].
  symmetry. apply existsb_exists. exists q. split; [assumption|].
  apply andb_true_iff. split.
  - apply negb_true_iff. now apply Z.eqb_neq.
  - now apply String.eqb_eq.
Qed.

Lemma existsb_other_title_none (p' : BlogPost.t) (l : list BlogPost.t) :
  (forall q, In q l -> BlogPost.id q <> BlogPost.id p' ->
             BlogPost.title q <> BlogPost.title p') ->
  existsb (fun q => negb (BlogPost.id q =? BlogPost.id p')
                    && String.eqb (BlogPost.title q) (BlogPost.title p')) l = false.
Proof.
  intros Hnone. destruct (existsb _ l) eqn:Hex; [|reflexivity].
  apply existsb_exists in Hex. destruct Hex as [q [Hq Hboth]].
  apply andb_true_iff in Hboth. destruct Hboth as [Hid Htitle].
  apply negb_true_iff, Z.eqb_neq in Hid. apply String.eqb_eq in Htitle.
  now apply (Hnone q Hq Hid) in Htitle.
Qed.

(** C7, as stated, fails, in three ways, all in the worked run.  An
    anonymous caller who submits the edit form of post 1 gets the server
    error page: [post.author = current_user] raises on the anonymous
    object, nothing is committed, and post 1 is as before.  The
    administrator who retitles post 1 to the title of post 2 gets the
    integrity error of the UNIQUE constraint, and post 1 is as before.
    And for the id 2^63, which no post has, the lookup raises
    [OverflowError] (status 500) instead of the 404. *)
Lemma edit_post_not_overwritten_example :
  get_or_404 BlogPost.id (blog_posts Demo.blog) 1 = Return Demo.hello_post /\
  full_dispatch_request (hashing := Demo.hashing) Demo.env Demo.blog None
    (EditPost 1 (POST (Build_CreateBlogPostForm "Edited" "S'" "U'" "B'") true))
  = Result (error_page (AttributeError "AnonymousUserMixin" "_sa_instance_state"))
      Demo.blog None /\
  full_dispatch_request (hashing := Demo.hashing) Demo.env Demo.blog (Some 1)
    (EditPost 1 (POST (Build_CreateBlogPostForm "World" "S'" "U'" "B'") true))
  = Result (error_page (IntegrityError "blog_posts.title")) Demo.blog (Some 1) /\
  BlogPost.title Demo.hello_post <> "Edited" /\
  BlogPost.title Demo.hello_post <> "World" /\
  ~ In 9223372036854775808 (map BlogPost.id (blog_posts Demo.blog)) /\
  full_dispatch_request (hashing := Demo.hashing) Demo.env Demo.blog (Some 1)
    (EditPost 9223372036854775808 GET)
  = Result (error_page OverflowError) Demo.blog (Some 1) /\
  status_code (error_page OverflowError) = 500.
Proof.
  repeat split; try discriminate.
  simpl. intros [H|[H|[]]]; discriminate H.
Qed.

(** C7, amended.  In a reachable database, when a logged-in caller (any
    user: the route has no administrator guard) submits the edit form of
    an existing post with a title no other post carries, the post's
    title, subtitle, body and image URL become the submitted ones, its
    author becomes the caller, its id and date stay, and every other
    post stays as it was.  For an id no post has, the request is a 404
    whoever calls, and nothing is written.  Ids are those SQLite can
    hold, at most 2^63 - 1. *)
Theorem edit_post_overwrites {hashing : PasswordHashing}
    (env : environ) (db : Database) :
  reachable db ->
  (forall s u p form,
     current_user db s = Return (LoggedIn u) ->
     In p (blog_posts db) ->
     BlogPost.id p <= sqlite_max_integer ->
     (forall q, In q (blog_posts db) -> BlogPost.id q <> BlogPost.id p ->
                BlogPost.title q <> form_title form) ->
     resp (full_dispatch_request env db s (EditPost (BlogPost.id p) (POST form true)))
     = redirect (ep_show_post (BlogPost.id p)) None /\
     get_or_404 BlogPost.id
       (blog_posts (db_after (full_dispatch_request env db s
                                (EditPost (BlogPost.id p) (POST form true)))))
       (BlogPost.id p)
     = Return (BlogPost.Build (BlogPost.id p) (Some (User.id u)) (form_title form)
                 (form_subtitle form) (BlogPost.date p) (form_body form)
                 (form_img_url form)) /\
     (forall q, In q (blog_posts db) -> BlogPost.id q <> BlogPost.id p ->
        In q (blog_posts (db_after (full_dispatch_request env db s
                                      (EditPost (BlogPost.id p) (POST form true)))))) /\
     map BlogPost.id
       (blog_posts (db_after (full_dispatch_request env db s
                                (EditPost (BlogPost.id p) (POST form true)))))
     = map BlogPost.id (blog_posts db)) /\
  (forall s post_id f,
     post_id <= sqlite_max_integer ->
     ~ In post_id (map BlogPost.id (blog_posts db)) ->
     full_dispatch_request env db s (EditPost post_id f)
     = Result (error_page (HTTPException 404)) db s).
Proof.
  intros Hreach. apply reachable_consistent in Hreach.
  destruct Hreach as [_ Hpk _ _ _ _ _ _]. split.
  - intros s u p form Hcu Hp Hrange Hfresh.
    set (p' := BlogPost.Build (BlogPost.id p) (Some (User.id u)) (form_title form)
                 (form_subtitle form) (BlogPost.date p) (form_body form)
                 (form_img_url form)).
    assert (Hres : full_dispatch_request env db s
                     (EditPost (BlogPost.id p) (POST form true))
                   = Result (redirect (ep_show_post (BlogPost.id p)) None)
                       {| users := users db;
                          blog_posts :=
                            map (fun q => if BlogPost.id q =? BlogPost.id p'
                                          then p' else q) (blog_posts db);
                          comments := comments db |} s).
    { unfold full_dispatch_request. simpl. unfold edit_post.
      rewrite (get_or_404_present BlogPost.id _ p Hrange Hpk Hp). cbn [bind].
      cbn [validate_on_submit].
      rewrite (autoflush_title_fresh db p _ Hfresh), current_user_after_flushed, Hcu.
      simpl. fold p'. unfold update_BlogPost.
      now rewrite (existsb_other_title_none p' (blog_posts db) Hfresh). }
    rewrite Hres. cbn [resp db_after blog_posts].
    split; [reflexivity|]. split; [|split].
    + apply (get_or_404_rewritten p'); [exact Hrange|]. simpl. now apply in_map.
    + intros q Hq Hne. apply in_map_iff. exists q. split; [|assumption].
      apply Z.eqb_neq in Hne. simpl. now rewrite Hne.
    + apply map_id_rewrite.
  - intros s post_id f Hrange Habs. unfold full_dispatch_request. simpl.
    unfold edit_post.
    now rewrite (get_or_404_absent BlogPost.id _ _ Hrange Habs).
Qed.

Lemma edit_post_overwrites_witness :
  get_or_404 BlogPost.id
    (blog_posts (db_after (full_dispatch_request (hashing := Demo.hashing) Demo.env
                             Demo.blog_with_reader (Some 2)
                             (EditPost 1
                                (POST (Build_CreateBlogPostForm "Edited" "S'" "U'" "B'")
                                   true)))))
    1
  = Return (BlogPost.Build 1 (Some 2) "Edited" "S'" "June 03, 2025" "B'" "U'") /\
  full_dispatch_request (hashing := Demo.hashing) Demo.env Demo.blog_with_reader None
    (EditPost 7 GET)
  = Result (error_page (HTTPException 404)) Demo.blog_with_reader None.
Proof.
  destruct (edit_post_overwrites (hashing := Demo.hashing) Demo.env
              Demo.blog_with_reader Demo.blog_with_reader_reachable)
    as [Hedit Hmissing].
  split.
  - apply (Hedit (Some 2) Demo.reader Demo.hello_post
             (Build_CreateBlogPostForm "Edited" "S'" "U'" "B'")).
    + reflexivity.
    + simpl. tauto.
    + vm_compute. discriminate.
    + simpl. intros q [<-|[<-|[]]] Hne; [contradiction | discriminate].
  - apply Hmissing.
    + vm_compute. discriminate.
    + simpl. intros [H|[H|[]]]; discriminate H.
Defined.

(** ** Commenting *)

(** C8, as stated, fails: the handler loads the post before it looks at
    the caller, so an anonymous caller who comments on an id no post has
    gets the 404 of the lookup and is not sent to the login page.  And
    for the id 2^63, which no post has either, the lookup raises
    [OverflowError]: the answer is status 500, not the 404. *)
Lemma show_post_anonymous_missing_post_example :
  ~ In 7 (map BlogPost.id (blog_posts Demo.blog)) /\
  current_user Demo.blog None = Return AnonymousUserMixin /\
  full_dispatch_request (hashing := Demo.hashing) Demo.env Demo.blog None
    (ShowPost 7 (POST Demo.nice true))
  = Result (error_page (HTTPException 404)) Demo.blog None /\
  resp (full_dispatch_request (hashing := Demo.hashing) Demo.env Demo.blog None
          (ShowPost 7 (POST Demo.nice true)))
  <> redirect ep_login (Some "You need to login or register to comment.") /\
  ~ In 9223372036854775808 (map BlogPost.id (blog_posts Demo.blog)) /\
  full_dispatch_request (hashing := Demo.hashing) Demo.env Demo.blog (Some 1)
    (ShowPost 9223372036854775808 (POST Demo.nice true))
  = Result (error_page OverflowError) Demo.blog (Some 1) /\
  status_code (error_page OverflowError) = 500.
Proof.
  repeat split; try discriminate.
  - simpl. intros [H|[H|[]]]; discriminate H.
  - simpl. intros [H|[H|[]]]; discriminate H.
Qed.

(** C8, amended.  On an existing post: an anonymous caller who submits a
    comment is redirected to the login page with the "need to login"
    message and nothing is stored; a logged-in caller's comment is
    stored as exactly one new row, with the caller as author and the
    post as parent, and the post page is shown.  On an id no post has,
    the request is a 404 whoever calls, and nothing is stored.  Ids are
    those SQLite can hold, at most 2^63 - 1. *)
Theorem show_post_comment_outcomes {hashing : PasswordHashing}
    (env : environ) (db : Database) (post_id : Z) (form : CommentForm) :
  (forall p,
     get_or_404 BlogPost.id (blog_posts db) post_id = Return p ->
     full_dispatch_request env db None (ShowPost post_id (POST form true))
     = Result (redirect ep_login (Some "You need to login or register to comment."))
         db None) /\
  (forall s u p,
     current_user db s = Return (LoggedIn u) ->
     get_or_404 BlogPost.id (blog_posts db) post_id = Return p ->
     full_dispatch_request env db s (ShowPost post_id (POST form true))
     = Result (rendered "post.html" (post p))
         {| users := users db;
            blog_posts := blog_posts db;
            comments :=
              comments db ++
              [ Comment.Build (next_rowid (map Comment.id (comments db)))
                  (comment_text form) (Some (User.id u)) (Some post_id) ] |}
         s) /\
  (forall s f,
     post_id <= sqlite_max_integer ->
     ~ In post_id (map BlogPost.id (blog_posts db)) ->
     full_dispatch_request env db s (ShowPost post_id f)
     = Result (error_page (HTTPException 404)) db s).
Proof.
  split; [|split].
  - intros p Hget. unfold full_dispatch_request. simpl. unfold show_post.
    now rewrite Hget.
  - intros s u p Hcu Hget. unfold full_dispatch_request. simpl. unfold show_post.
    rewrite Hget. simpl. rewrite Hcu. simpl. unfold render_template.
    apply get_or_404_Return in Hget. destruct Hget as [_ ->].
    change (current_user _ s) with (current_user db s).
    now rewrite Hcu.
  - intros s f Hrange Habs. unfold full_dispatch_request. simpl. unfold show_post.
    now rewrite (get_or_404_absent BlogPost.id _ _ Hrange Habs).
Qed.

Lemma show_post_comment_outcomes_witness :
  full_dispatch_request (hashing := Demo.hashing) Demo.env Demo.blog None
    (ShowPost 2 (POST Demo.nice true))
  = Result (redirect ep_login (Some "You need to login or register to comment."))
      Demo.blog None /\
  full_dispatch_request (hashing := Demo.hashing) Demo.env Demo.blog (Some 1)
    (ShowPost 2 (POST Demo.nice true))
  = Result (rendered "post.html" (post Demo.world_post))
      {| users := users Demo.blog;
         blog_posts := blog_posts Demo.blog;
         comments := [Demo.nice_comment; Comment.Build 2 "Nice post" (Some 1) (Some 2)] |}
      (Some 1) /\
  full_dispatch_request (hashing := Demo.hashing) Demo.env Demo.blog (Some 1)
    (ShowPost 7 GET)
  = Result (error_page (HTTPException 404)) Demo.blog (Some 1).
Proof.
  split; [|split].
  - apply (proj1 (show_post_comment_outcomes (hashing := Demo.hashing) Demo.env
                    Demo.blog 2 Demo.nice) Demo.world_post).
    reflexivity.
  - apply (proj1 (proj2 (show_post_comment_outcomes (hashing := Demo.hashing)
                           Demo.env Demo.blog 2 Demo.nice))
             (Some 1) Demo.admin Demo.world_post); reflexivity.
  - apply (proj2 (proj2 (show_post_comment_outcomes (hashing := Demo.hashing)
                           Demo.env Demo.blog 7 Demo.nice))).
    + vm_compute. discriminate.
    + simpl. intros [H|[H|[]]]; discriminate H.
Defined.


(** * What a request can write *)

Section Effects.
Context {hashing : PasswordHashing}.
Variable env : environ.

(** The results a request can have, read off the handlers: either the
    database is as it was (and the session is kept, emptied by logout, or
    set by a login to a row of [users]), or exactly one of the five
    commits of the program happened. *)
Inductive effect (db : Database) (s : session) : request -> result -> Prop :=
| effect_none (r : request) (res : result) :
    db_after res = db ->
    session_after res = s \/
    (r = Logout /\ session_after res = None) \/
    (exists form u, r = Login (POST form true) /\ In u (users db) /\
                    session_after res = Some (User.id u)) ->
    effect db s r res
| effect_register (form : RegistrationForm) (u : User.t) (db' : Database) :
    add_User db (reg_email form) (reg_name form)
      (generate_password_hash (reg_password form) "pbkdf2:sha256" (salt env))
    = Return (u, db') ->
    effect db s (Register (POST form true))
      (Result (redirect ep_get_all_posts None) db' (Some (User.id u)))
| effect_comment (post_id : Z) (form : CommentForm) (u : User.t) (p : BlogPost.t) :
    current_user db s = Return (LoggedIn u) ->
    get_or_404 BlogPost.id (blog_posts db) post_id = Return p ->
    effect db s (ShowPost post_id (POST form true))
      (Result (rendered "post.html" (post p))
         (snd (add_Comment db (comment_text form) u p)) s)
| effect_new_post (form : CreateBlogPostForm) (admin : User.t) (p : BlogPost.t)
    (db' : Database) :
    current_user db s = Return (LoggedIn admin) ->
    User.id admin = 1 ->
    add_BlogPost db admin (form_title form) (form_subtitle form)
      (datetime.strftime (today env)) (form_body form) (form_img_url form)
    = Return (p, db') ->
    effect db s (NewPost (POST form true))
      (Result (redirect ep_get_all_posts None) db' s)
| effect_edit (post_id : Z) (form : CreateBlogPostForm) (u : User.t)
    (p : BlogPost.t) (db' : Database) :
    current_user db s = Return (LoggedIn u) ->
    get_or_404 BlogPost.id (blog_posts db) post_id = Return p ->
    update_BlogPost db
      (BlogPost.Build (BlogPost.id p) (Some (User.id u)) (form_title form)
         (form_subtitle form) (BlogPost.date p) (form_body form) (form_img_url form))
    = Return db' ->
    effect db s (EditPost post_id (POST form true))
      (Result (redirect (ep_show_post (BlogPost.id p)) None) db' s)
| effect_delete (post_id : Z) (admin : User.t) (p : BlogPost.t) :
    current_user db s = Return (LoggedIn admin) ->
    User.id admin = 1 ->
    get_or_404 BlogPost.id (blog_posts db) post_id = Return p ->
    effect db s (Delete post_id)
      (Result (redirect ep_get_all_posts None) (delete_BlogPost db p) s).

Lemma effect_unchanged (db : Database) (s : session) (r : request) (resp0 : response) :
  effect db s r (Result resp0 db s).
Proof. apply effect_none; simpl; tauto. Qed.

Lemma validate_on_submit_Some {F : Type} (f : submission F) (form : F) :
  validate_on_submit f = Some form -> f = POST form true.
Proof.
  destruct f as [|data [|]]; simpl; intros H; try discriminate.
  now injection H as ->.
Qed.

Lemma mapped_instance_Return (c : principal) (u : User.t) :
  mapped_instance c = Return u -> c = LoggedIn u.
Proof.
  destruct c as [v|]; simpl; intros H; [|discriminate]. now injection H as ->.
Qed.

Lemma admin_only_Return_user (f : Database -> session -> raises result)
    (db : Database) (s : session) (res : result) :
  admin_only f db s = Return res ->
  exists admin, current_user db s = Return (LoggedIn admin) /\ User.id admin = 1 /\
                f db s = Return res.
Proof.
  unfold admin_only. intros H. bind_inv H. bind_inv H.
  destruct (negb (a0 =? 1)) eqn:Hid; [discriminate|].
  apply negb_false_iff, Z.eqb_eq in Hid. subst a0.
  destruct a as [u|]; simpl in Ha0; [|discriminate].
  injection Ha0 as Hu. exists u. tauto.
Qed.

Lemma dispatch_request_effect (db : Database) (s : session) (r : request)
    (res : result) :
  dispatch_request env db s r = Return res -> effect db s r res.
Proof.
  destruct r as [f|f| | |post_id f|f|post_id f|post_id| | ]; simpl.
  - unfold register. destruct (validate_on_submit f) as [form|] eqn:Hf.
    + apply validate_on_submit_Some in Hf. subst f.
      destruct (select_user_by_email db (reg_email form)).
      * intros [= <-]. apply effect_unchanged.
      * intros H. bind_inv H. destruct a as [u db']. injection H as <-.
        now apply effect_register.
    + intros H. apply render_template_Return in H. subst res. apply effect_unchanged.
  - unfold login. destruct (validate_on_submit f) as [form|] eqn:Hf.
    + apply validate_on_submit_Some in Hf. subst f.
      destruct (select_user_by_email db (login_email form)) as [user|] eqn:Hsel.
      * destruct (negb _); intros [= <-]; [apply effect_unchanged|].
        apply effect_none; [reflexivity|]. right. right.
        exists form, user. apply find_some in Hsel. simpl. tauto.
      * intros [= <-]. apply effect_unchanged.
    + intros H. apply render_template_Return in H. subst res. apply effect_unchanged.
  - unfold logout. intros H. bind_inv H. injection H as <-.
    apply effect_none; simpl; tauto.
  - unfold get_all_posts. intros H. apply render_template_Return in H. subst res.
    apply effect_unchanged.
  - unfold show_post. intros H. bind_inv H.
    destruct (validate_on_submit f) as [form|] eqn:Hf.
    + apply validate_on_submit_Some in Hf. subst f. bind_inv H.
      destruct (negb (is_authenticated a0)).
      * injection H as <-. apply effect_unchanged.
      * bind_inv H. apply render_template_Return in H. subst res.
        apply mapped_instance_Return in Ha1. subst a0. now apply effect_comment.
    + apply render_template_Return in H. subst res. apply effect_unchanged.
  - unfold add_new_post. intros H. apply admin_only_Return_user in H.
    destruct H as [admin [Hcu [Hadmin H]]].
    destruct (validate_on_submit f) as [form|] eqn:Hf.
    + apply validate_on_submit_Some in Hf. subst f.
      bind_inv H. bind_inv H. bind_inv H. destruct a1 as [p db'].
      injection H as <-. apply mapped_instance_Return in Ha0. subst a.
      rewrite Hcu in Ha. injection Ha as <-. eapply effect_new_post; eauto.
    + apply render_template_Return in H. subst res. apply effect_unchanged.
  - unfold edit_post. intros H. bind_inv H.
    destruct (validate_on_submit f) as [form|] eqn:Hf.
    + apply validate_on_submit_Some in Hf. subst f.
      bind_inv H. bind_inv H. bind_inv H. injection H as <-.
      apply mapped_instance_Return in Ha1. subst a0.
      apply current_user_after_Return in Ha0. eapply effect_edit; eauto.
    + apply render_template_Return in H. subst res. apply effect_unchanged.
  - unfold delete_post. intros H. apply admin_only_Return_user in H.
    destruct H as [admin [Hcu [Hadmin H]]]. bind_inv H. injection H as <-.
    eapply effect_delete; eauto.
  - unfold about. intros H. apply render_template_Return in H. subst res.
    apply effect_unchanged.
  - unfold contact. intros H. apply render_template_Return in H. subst res.
    apply effect_unchanged.
Qed.

Lemma full_dispatch_request_effect (db : Database) (s : session) (r : request) :
  effect db s r (full_dispatch_request env db s r).
Proof.
  unfold full_dispatch_request.
  destruct (dispatch_request env db s r) as [res|e] eqn:Hres.
  - now apply dispatch_request_effect.
  - apply effect_unchanged.
Qed.
End Effects.

Lemma add_User_Return (db db' : Database) (e n pw : string) (u : User.t) :
  add_User db e n pw = Return (u, db') ->
  u = User.Build (next_rowid (map User.id (users db))) e pw n /\
  users db' = (users db ++ [u])%list /\
  blog_posts db' = blog_posts db /\ comments db' = comments db /\
  ~ In e (map User.email (users db)).
Proof.
  unfold add_User. destruct (existsb _ (users db)) eqn:Hex; [discriminate|].
  intros [= <- <-]. simpl. repeat split. now apply existsb_eqb_absent.
Qed.

Lemma add_BlogPost_Return (db db' : Database) (author : User.t)
    (t st d b i : string) (p : BlogPost.t) :
  add_BlogPost db author t st d b i = Return (p, db') ->
  p = BlogPost.Build (next_rowid (map BlogPost.id (blog_posts db)))
        (Some (User.id author)) t st d b i /\
  users db' = users db /\
  blog_posts db' = (blog_posts db ++ [p])%list /\
  comments db' = comments db.
Proof.
  unfold add_BlogPost. destruct (existsb _ (blog_posts db)); [discriminate|].
  intros [= <- <-]. simpl. repeat split.
Qed.

Lemma update_BlogPost_Return (db db' : Database) (p' : BlogPost.t) :
  update_BlogPost db p' = Return db' ->
  users db' = users db /\
  blog_posts db'
  = map (fun q => if BlogPost.id q =? BlogPost.id p' then p' else q) (blog_posts db) /\
  comments db' = comments db.
Proof.
  unfold update_BlogPost. destruct (existsb _ (blog_posts db)); [discriminate|].
  intros [= <-]. simpl. repeat split.
Qed.


(** * Further properties *)

(** ** Who may write what *)

(** X1.  A caller who is logged in as a user other than user 1 is
    refused on both administrator routes with status 403, before the
    post id or the form is looked at, and nothing is written. *)
Theorem admin_routes_forbidden_to_other_users {hashing : PasswordHashing}
    (env : environ) (db : Database) (s : session) (u : User.t) :
  current_user db s = Return (LoggedIn u) ->
  User.id u <> 1 ->
  (forall f,
     full_dispatch_request env db s (NewPost f)
     = Result (error_page (HTTPException 403)) db s) /\
  (forall post_id,
     full_dispatch_request env db s (Delete post_id)
     = Result (error_page (HTTPException 403)) db s) /\
  status_code (error_page (HTTPException 403)) = 403.
Proof.
  intros Hcu Hid. split; [|split; [|reflexivity]].
  - intros f. apply (admin_only_forbids_other_users env db s u); eauto.
  - intros post_id. apply (admin_only_forbids_other_users env db s u); eauto.
Qed.

Lemma admin_routes_forbidden_to_other_users_witness :
  full_dispatch_request (hashing := Demo.hashing) Demo.env Demo.blog_with_reader
    (Some 2) (Delete 1)
  = Result (error_page (HTTPException 403)) Demo.blog_with_reader (Some 2).
Proof.
  apply (admin_routes_forbidden_to_other_users (hashing := Demo.hashing) Demo.env
           Demo.blog_with_reader (Some 2) Demo.reader).
  - reflexivity.
  - simpl. lia.
Defined.

(** X2.  Whatever the request and the cookie, each route writes only
    its own tables: [/register] only [users]; [/post/<id>] only
    [comments]; [/new-post] and [/edit-post/<id>] only [blog_posts];
    [/delete/<id>] never [users]; login, logout, the home, about and
    contact pages nothing at all. *)
Theorem routes_write_their_tables {hashing : PasswordHashing}
    (env : environ) (db : Database) (s : session) :
  (forall f,
     blog_posts (db_after (full_dispatch_request env db s (Register f)))
     = blog_posts db /\
     comments (db_after (full_dispatch_request env db s (Register f)))
     = comments db) /\
  (forall post_id f,
     users (db_after (full_dispatch_request env db s (ShowPost post_id f)))
     = users db /\
     blog_posts (db_after (full_dispatch_request env db s (ShowPost post_id f)))
     = blog_posts db) /\
  (forall f,
     users (db_after (full_dispatch_request env db s (NewPost f))) = users db /\
     comments (db_after (full_dispatch_request env db s (NewPost f)))
     = comments db) /\
  (forall post_id f,
     users (db_after (full_dispatch_request env db s (EditPost post_id f)))
     = users db /\
     comments (db_after (full_dispatch_request env db s (EditPost post_id f)))
     = comments db) /\
  (forall post_id,
     users (db_after (full_dispatch_request env db s (Delete post_id))) = users db) /\
  (forall f, db_after (full_dispatch_request env db s (Login f)) = db) /\
  db_after (full_dispatch_request env db s Logout) = db /\
  db_after (full_dispatch_request env db s Home) = db /\
  db_after (full_dispatch_request env db s About) = db /\
  db_after (full_dispatch_request env db s Contact) = db.
Proof.
  split; [intros f|split; [intros post_id f|split; [intros f|
    split; [intros post_id f|split; [intros post_id|]]]]].
  - pose proof (full_dispatch_request_effect env db s (Register f)) as H.
    inversion H as [? ? Hdb|? ? ? Hadd| | | | ]; subst; [now rewrite Hdb|].
    apply add_User_Return in Hadd. tauto.
  - pose proof (full_dispatch_request_effect env db s (ShowPost post_id f)) as H.
    inversion H as [? ? Hdb| | | | | ]; subst; [now rewrite Hdb|]. now split.
  - pose proof (full_dispatch_request_effect env db s (NewPost f)) as H.
    inversion H as [? ? Hdb| | |? ? ? ? ? ? Hadd| | ]; subst; [now rewrite Hdb|].
    apply add_BlogPost_Return in Hadd. tauto.
  - pose proof (full_dispatch_request_effect env db s (EditPost post_id f)) as H.
    inversion H as [? ? Hdb| | | |? ? ? ? ? ? ? Hupd| ]; subst; [now rewrite Hdb|].
    apply update_BlogPost_Return in Hupd. tauto.
  - pose proof (full_dispatch_request_effect env db s (Delete post_id)) as H.
    inversion H as [? ? Hdb| | | | | ]; subst; [now rewrite Hdb|reflexivity].
  - split; [intros f|repeat split].
    + pose proof (full_dispatch_request_effect env db s (Login f)) as H.
      now inversion H.
    + pose proof (full_dispatch_request_effect env db s Logout) as H.
      now inversion H.
    + pose proof (full_dispatch_request_effect env db s Home) as H.
      now inversion H.
    + pose proof (full_dispatch_request_effect env db s About) as H.
      now inversion H.
    + pose proof (full_dispatch_request_effect env db s Contact) as H.
      now inversion H.
Qed.

(** X3.  No request removes or rewrites a row of [users]: the table
    after a request is the table before, followed by at most one row,
    and a row is added only by a validated registration form, with the
    submitted email and name and the hash of the submitted password. *)
Theorem users_only_grow {hashing : PasswordHashing}
    (env : environ) (db : Database) (s : session) (r : request) :
  exists l,
    users (db_after (full_dispatch_request env db s r)) = (users db ++ l)%list /\
    (l = [] \/
     exists form,
       r = Register (POST form true) /\
       l = [ User.Build (next_rowid (map User.id (users db))) (reg_email form)
               (generate_password_hash (reg_password form) "pbkdf2:sha256" (salt env))
               (reg_name form) ]).
Proof.
  pose proof (full_dispatch_request_effect env db s r) as H.
  remember (full_dispatch_request env db s r) as res eqn:Hres. clear Hres.
  destruct H as [r res Hdb _|form u db' Hadd|post_id form u p _ _
                |form admin p db' _ _ Hadd|post_id form u p db' _ _ Hupd
                |post_id admin p _ _ _].
  - exists []. rewrite Hdb, app_nil_r. tauto.
  - apply add_User_Return in Hadd. destruct Hadd as [Hu [Husers _]].
    exists [u]. split; [assumption|]. right. exists form. now rewrite Hu.
  - exists []. simpl. rewrite app_nil_r. tauto.
  - apply add_BlogPost_Return in Hadd. destruct Hadd as [_ [Husers _]].
    exists []. simpl. rewrite Husers, app_nil_r. tauto.
  - apply update_BlogPost_Return in Hupd. destruct Hupd as [Husers _].
    exists []. simpl. rewrite Husers, app_nil_r. tauto.
  - exists []. simpl. rewrite app_nil_r. tauto.
Qed.

(** X4.  The ids of [blog_posts] change (a post is added or removed)
    only when the caller is logged in as user 1 and the request is to
    [/new-post] or [/delete/<id>]; editing never changes them. *)
Theorem only_admin_adds_or_removes_posts {hashing : PasswordHashing}
    (env : environ) (db : Database) (s : session) (r : request) :
  map BlogPost.id (blog_posts (db_after (full_dispatch_request env db s r)))
  <> map BlogPost.id (blog_posts db) ->
  exists admin,
    current_user db s = Return (LoggedIn admin) /\ User.id admin = 1 /\
    ((exists f, r = NewPost f) \/ exists post_id, r = Delete post_id).
Proof.
  pose proof (full_dispatch_request_effect env db s r) as H.
  remember (full_dispatch_request env db s r) as res eqn:Hres. clear Hres.
  destruct H as [r res Hdb _|form u db' Hadd|post_id form u p _ _
                |form admin p db' Hcu Hadmin _|post_id form u p db' _ _ Hupd
                |post_id admin p Hcu Hadmin _]; intros Hne.
  - rewrite Hdb in Hne. contradiction.
  - apply add_User_Return in Hadd. destruct Hadd as [_ [_ [Hposts _]]].
    simpl in Hne. rewrite Hposts in Hne. contradiction.
  - simpl in Hne. contradiction.
  - exists admin. split; [assumption|]. split; [assumption|]. left. eauto.
  - apply update_BlogPost_Return in Hupd. destruct Hupd as [_ [Hposts _]].
    simpl in Hne. rewrite Hposts, map_id_rewrite in Hne. contradiction.
  - exists admin. split; [assumption|]. split; [assumption|]. right. eauto.
Qed.

Lemma only_admin_adds_or_removes_posts_witness :
  exists admin,
    current_user Demo.blog (Some 1) = Return (LoggedIn admin) /\ User.id admin = 1 /\
    ((exists f, Delete 1 = NewPost f) \/ exists post_id, Delete 1 = Delete post_id).
Proof.
  apply (only_admin_adds_or_removes_posts (hashing := Demo.hashing) Demo.env
           Demo.blog (Some 1) (Delete 1)).
  simpl. discriminate.
Defined.

(** X5.  A caller who is not logged in as a row of [users] (no session,
    or a session naming no user) cannot change [blog_posts] or
    [comments], whatever the request. *)
Theorem visitors_write_no_posts_or_comments {hashing : PasswordHashing}
    (env : environ) (db : Database) (s : session) (r : request) :
  (forall u, current_user db s <> Return (LoggedIn u)) ->
  blog_posts (db_after (full_dispatch_request env db s r)) = blog_posts db /\
  comments (db_after (full_dispatch_request env db s r)) = comments db.
Proof.
  intros Hvisitor.
  pose proof (full_dispatch_request_effect env db s r) as H.
  remember (full_dispatch_request env db s r) as res eqn:Hres. clear Hres.
  destruct H as [r res Hdb _|form u db' Hadd|post_id form u p Hcu _
                |form admin p db' Hcu _ _|post_id form u p db' Hcu _ _
                |post_id admin p Hcu _ _];
    try (now apply Hvisitor in Hcu).
  - now rewrite Hdb.
  - apply add_User_Return in Hadd. simpl. tauto.
Qed.

Lemma visitors_write_no_posts_or_comments_witness :
  blog_posts (db_after (full_dispatch_request (hashing := Demo.hashing) Demo.env
                          Demo.blog None
                          (EditPost 1 (POST Demo.world true))))
  = blog_posts Demo.blog /\
  comments (db_after (full_dispatch_request (hashing := Demo.hashing) Demo.env
                        Demo.blog None
                        (EditPost 1 (POST Demo.world true))))
  = comments Demo.blog.
Proof.
  apply (visitors_write_no_posts_or_comments (hashing := Demo.hashing) Demo.env
           Demo.blog None).
  intros u. simpl. discriminate.
Defined.

(** X6.  No request deletes a comment or changes its text or author:
    every comment of the table before the request is in the table after
    it under the same id, with the same text and author, and with the
    same parent or NULL. *)
Theorem comments_are_kept {hashing : PasswordHashing}
    (env : environ) (db : Database) (s : session) (r : request) (c : Comment.t) :
  In c (comments db) ->
  exists c',
    In c' (comments (db_after (full_dispatch_request env db s r))) /\
    Comment.id c' = Comment.id c /\
    Comment.text c' = Comment.text c /\
    Comment.author_id c' = Comment.author_id c /\
    (Comment.post_id c' = Comment.post_id c \/ Comment.post_id c' = None).
Proof.
  intros Hc.
  pose proof (full_dispatch_request_effect env db s r) as H.
  remember (full_dispatch_request env db s r) as res eqn:Hres. clear Hres.
  destruct H as [r res Hdb _|form u db' Hadd|post_id form u p _ _
                |form admin p db' _ _ Hadd|post_id form u p db' _ _ Hupd
                |post_id admin p _ _ _].
  - exists c. rewrite Hdb. tauto.
  - apply add_User_Return in Hadd. destruct Hadd as [_ [_ [_ [Hcs _]]]].
    exists c. simpl. rewrite Hcs. tauto.
  - exists c. simpl. split; [apply in_or_app; now left | tauto].
  - apply add_BlogPost_Return in Hadd. destruct Hadd as [_ [_ [_ Hcs]]].
    exists c. simpl. rewrite Hcs. tauto.
  - apply update_BlogPost_Return in Hupd. destruct Hupd as [_ [_ Hcs]].
    exists c. simpl. rewrite Hcs. tauto.
  - exists (if refers_to (Comment.post_id c) (BlogPost.id p)
            then Comment.set_post_id c None else c).
    split.
    + simpl. apply in_map_iff. now exists c.
    + destruct (refers_to _ _); simpl; tauto.
Qed.

Lemma comments_are_kept_witness :
  exists c',
    In c' (comments (db_after (full_dispatch_request (hashing := Demo.hashing)
                                 Demo.env Demo.blog (Some 1) (Delete 1)))) /\
    Comment.id c' = Comment.id Demo.nice_comment /\
    Comment.text c' = Comment.text Demo.nice_comment /\
    Comment.author_id c' = Comment.author_id Demo.nice_comment /\
    (Comment.post_id c' = Comment.post_id Demo.nice_comment \/
     Comment.post_id c' = None).
Proof.
  apply (comments_are_kept (hashing := Demo.hashing) Demo.env Demo.blog (Some 1)
           (Delete 1) Demo.nice_comment).
  simpl. tauto.
Defined.

(** ** Requests that write nothing *)

(** X7.  On the five routes that take a form, a GET, or a POST whose
    form does not validate, leaves the database and the session as they
    were. *)
Theorem unvalidated_forms_write_nothing {hashing : PasswordHashing}
    (env : environ) (db : Database) (s : session) (r : request) :
  (exists f, r = Register f /\ validate_on_submit f = None) \/
  (exists f, r = Login f /\ validate_on_submit f = None) \/
  (exists post_id f, r = ShowPost post_id f /\ validate_on_submit f = None) \/
  (exists f, r = NewPost f /\ validate_on_submit f = None) \/
  (exists post_id f, r = EditPost post_id f /\ validate_on_submit f = None) ->
  db_after (full_dispatch_request env db s r) = db /\
  session_after (full_dispatch_request env db s r) = s.
Proof.
  intros Hr.
  pose proof (full_dispatch_request_effect env db s r) as H.
  remember (full_dispatch_request env db s r) as res eqn:Hres. clear Hres.
  destruct H as [r res Hdb Hs|form u db' _|post_id form u p _ _
                |form admin p db' _ _ _|post_id form u p db' _ _ _
                |post_id admin p _ _ _].
  - split; [assumption|].
    destruct Hs as [Hs|[[-> _]|[form [u [-> _]]]]]; [assumption| |].
    + destruct Hr as [[f [Hr _]]|[[f [Hr _]]|[[i [f [Hr _]]]|[[f [Hr _]]|[i [f [Hr _]]]]]]];
        discriminate Hr.
    + destruct Hr as [[f [Hr _]]|[[f [Hr Hv]]|[[i [f [Hr _]]]|[[f [Hr _]]|[i [f [Hr _]]]]]]];
        try discriminate Hr.
      injection Hr as <-. discriminate Hv.
  - destruct Hr as [[f [Hr Hv]]|[[f [Hr _]]|[[i [f [Hr _]]]|[[f [Hr _]]|[i [f [Hr _]]]]]]];
      try discriminate Hr.
    injection Hr as <-. discriminate Hv.
  - destruct Hr as [[f [Hr _]]|[[f [Hr _]]|[[i [f [Hr Hv]]]|[[f [Hr _]]|[i [f [Hr _]]]]]]];
      try discriminate Hr.
    injection Hr as _ <-. discriminate Hv.
  - destruct Hr as [[f [Hr _]]|[[f [Hr _]]|[[i [f [Hr _]]]|[[f [Hr Hv]]|[i [f [Hr _]]]]]]];
      try discriminate Hr.
    injection Hr as <-. discriminate Hv.
  - destruct Hr as [[f [Hr _]]|[[f [Hr _]]|[[i [f [Hr _]]]|[[f [Hr _]]|[i [f [Hr Hv]]]]]]];
      try discriminate Hr.
    injection Hr as _ <-. discriminate Hv.
  - destruct Hr as [[f [Hr _]]|[[f [Hr _]]|[[i [f [Hr _]]]|[[f [Hr _]]|[i [f [Hr _]]]]]]];
      discriminate Hr.
Qed.

Lemma unvalidated_forms_write_nothing_witness :
  db_after (full_dispatch_request (hashing := Demo.hashing) Demo.env Demo.blog
              (Some 1) (NewPost (POST Demo.world false))) = Demo.blog /\
  session_after (full_dispatch_request (hashing := Demo.hashing) Demo.env Demo.blog
                   (Some 1) (NewPost (POST Demo.world false))) = Some 1.
Proof.
  apply (unvalidated_forms_write_nothing (hashing := Demo.hashing) Demo.env
           Demo.blog (Some 1) (NewPost (POST Demo.world false))).
  right. right. right. left. exists (POST Demo.world false). split; reflexivity.
Defined.

(** ** Sessions the application hands out *)

Lemma select_or_404_In {A : Type} (pk : A -> Z) (table : list A) (r : A) :
  In r table -> exists r', select_or_404 pk table (pk r) = Return r'.
Proof.
  intros Hin. unfold select_or_404.
  destruct (find _ table) as [r'|] eqn:Hfind; [now exists r'|].
  apply (find_none _ _ Hfind) in Hin. rewrite Z.eqb_refl in Hin. discriminate.
Qed.

Lemma select_or_404_app {A : Type} (pk : A -> Z) (table more : list A) (key : Z)
    (r : A) :
  select_or_404 pk table key = Return r ->
  select_or_404 pk (table ++ more) key = Return r.
Proof.
  unfold select_or_404. induction table as [|a table IH]; simpl; [discriminate|].
  destruct (pk a =? key); [tauto|assumption].
Qed.

Lemma current_user_app (db db' : Database) (more : list User.t) (s : session)
    (c : principal) :
  users db' = (users db ++ more)%list ->
  current_user db s = Return c -> current_user db' s = Return c.
Proof.
  intros Husers. destruct s as [user_id|]; simpl; [|tauto].
  unfold load_user. rewrite Husers.
  destruct (select_or_404 User.id (users db) user_id) as [u|e] eqn:Hget; simpl;
    [|discriminate].
  now rewrite (select_or_404_app _ _ more _ _ Hget).
Qed.

Lemma full_dispatch_request_users {hashing : PasswordHashing}
    (env : environ) (db : Database) (s : session) (r : request) :
  exists more,
    users (db_after (full_dispatch_request env db s r)) = (users db ++ more)%list /\
    (more = [] \/
     exists u, more = [u] /\ User.id u = next_rowid (map User.id (users db))).
Proof.
  pose proof (full_dispatch_request_effect env db s r) as H.
  remember (full_dispatch_request env db s r) as res eqn:Hres. clear Hres.
  destruct H as [r res Hdb _|form u db' Hadd|post_id form u p _ _
                |form admin p db' _ _ Hadd|post_id form u p db' _ _ Hupd
                |post_id admin p _ _ _].
  - exists []. rewrite Hdb, app_nil_r. tauto.
  - apply add_User_Return in Hadd. destruct Hadd as [Hu [Husers _]].
    exists [u]. split; [assumption|]. right. exists u. now rewrite Hu.
  - exists []. simpl. rewrite app_nil_r. tauto.
  - apply add_BlogPost_Return in Hadd. destruct Hadd as [_ [Husers _]].
    exists []. simpl. rewrite Husers, app_nil_r. tauto.
  - apply update_BlogPost_Return in Hupd. destruct Hupd as [Husers _].
    exists []. simpl. rewrite Husers, app_nil_r. tauto.
  - exists []. simpl. rewrite app_nil_r. tauto.
Qed.

(** X8.  The application never hands out a session it cannot resolve.
    When the cookie of a request resolves (to a user or to the anonymous
    caller), the cookie the response sets resolves in the database the
    request leaves behind, and so does the cookie the request came with:
    the 404 of [load_user] cannot arise from the application's own
    requests. *)
Theorem sessions_stay_resolvable {hashing : PasswordHashing}
    (env : environ) (db : Database) (s : session) (r : request) (c : principal) :
  current_user db s = Return c ->
  (exists c',
     current_user (db_after (full_dispatch_request env db s r))
       (session_after (full_dispatch_request env db s r)) = Return c') /\
  current_user (db_after (full_dispatch_request env db s r)) s = Return c.
Proof.
  intros Hcu.
  destruct (full_dispatch_request_users env db s r) as [more [Husers _]].
  split; [|now apply (current_user_app db _ more)].
  pose proof (full_dispatch_request_effect env db s r) as H.
  remember (full_dispatch_request env db s r) as res eqn:Hres. clear Hres.
  destruct H as [r res Hdb Hs|form u db' Hadd|post_id form u p _ _
                |form admin p db' _ _ _|post_id form u p db' _ _ _
                |post_id admin p _ _ _];
    try (exists c; cbn [session_after]; now apply (current_user_app db _ more)).
  - rewrite Hdb. destruct Hs as [->|[[_ ->]|[form [u [_ [Hu ->]]]]]].
    + now exists c.
    + now exists AnonymousUserMixin.
    + destruct (select_or_404_In User.id (users db) u Hu) as [u' Hget].
      exists (LoggedIn u'). simpl. unfold load_user. now rewrite Hget.
  - apply add_User_Return in Hadd. destruct Hadd as [_ [Husers' _]].
    cbn [db_after session_after].
    destruct (select_or_404_In User.id (users db') u) as [u' Hget].
    { rewrite Husers'. apply in_or_app. right. simpl. tauto. }
    exists (LoggedIn u'). simpl. unfold load_user. now rewrite Hget.
Qed.

Lemma sessions_stay_resolvable_witness :
  (exists c',
     current_user
       (db_after (full_dispatch_request (hashing := Demo.hashing) Demo.env Demo.blog
                    None (Register (POST Demo.reader_form true))))
       (session_after (full_dispatch_request (hashing := Demo.hashing) Demo.env
                         Demo.blog None (Register (POST Demo.reader_form true))))
     = Return c') /\
  current_user
    (db_after (full_dispatch_request (hashing := Demo.hashing) Demo.env Demo.blog
                 None (Register (POST Demo.reader_form true)))) None
  = Return AnonymousUserMixin.
Proof.
  apply (sessions_stay_resolvable (hashing := Demo.hashing) Demo.env Demo.blog None
           (Register (POST Demo.reader_form true)) AnonymousUserMixin).
  reflexivity.
Defined.

(** ** Integrity of reachable databases *)

(** X9.  In every database the application can reach, the ids of each
    table are pairwise different, no two users have the same email and
    no two posts the same title: creating and editing posts and
    registering users never produce a duplicate. *)
Theorem reachable_keys_unique {hashing : PasswordHashing} (db : Database) :
  reachable db ->
  NoDup (map User.id (users db)) /\
  NoDup (map BlogPost.id (blog_posts db)) /\
  NoDup (map Comment.id (comments db)) /\
  NoDup (map User.email (users db)) /\
  NoDup (map BlogPost.title (blog_posts db)).
Proof.
  intros Hreach. apply reachable_consistent in Hreach.
  destruct Hreach as [Hu Hp Hc He Ht _ _ _]. tauto.
Qed.

Lemma reachable_keys_unique_witness :
  NoDup (map User.id (users Demo.blog_with_reader)) /\
  NoDup (map BlogPost.id (blog_posts Demo.blog_with_reader)) /\
  NoDup (map Comment.id (comments Demo.blog_with_reader)) /\
  NoDup (map User.email (users Demo.blog_with_reader)) /\
  NoDup (map BlogPost.title (blog_posts Demo.blog_with_reader)).
Proof.
  apply (reachable_keys_unique (hashing := Demo.hashing)).
  apply Demo.blog_with_reader_reachable.
Defined.

(** X10.  In every database the application can reach, each post has
    exactly one author among the rows of [users]: the author column of
    a post is never NULL and never names a missing user. *)
Theorem reachable_post_author {hashing : PasswordHashing}
    (db : Database) (p : BlogPost.t) :
  reachable db ->
  In p (blog_posts db) ->
  exists! u, In u (users db) /\ BlogPost.author_id p = Some (User.id u).
Proof.
  intros Hreach Hp. apply reachable_consistent in Hreach.
  destruct Hreach as [Hu _ _ _ _ Hpa _ _].
  destruct (Hpa p Hp) as [u [Hin Hfk]]. exists u. split; [now split|].
  intros v [Hv Hfk']. eapply NoDup_map_inj; eauto. congruence.
Qed.

Lemma reachable_post_author_witness :
  exists! u, In u (users Demo.blog) /\
             BlogPost.author_id Demo.world_post = Some (User.id u).
Proof.
  apply (reachable_post_author (hashing := Demo.hashing)).
  - apply Demo.blog_reachable.
  - simpl. tauto.
Defined.

(** ** How the operations compose *)

Lemma register_commits {hashing : PasswordHashing}
    (env : environ) (db : Database) (s : session) (form : RegistrationForm) :
  (forall u, In u (users db) -> User.email u <> reg_email form) ->
  full_dispatch_request env db s (Register (POST form true))
  = Result (redirect ep_get_all_posts None)
      {| users :=
           users db ++
           [ User.Build (next_rowid (map User.id (users db))) (reg_email form)
               (generate_password_hash (reg_password form) "pbkdf2:sha256" (salt env))
               (reg_name form) ];
         blog_posts := blog_posts db;
         comments := comments db |}
      (Some (next_rowid (map User.id (users db)))).
Proof.
  intros Hfresh. unfold full_dispatch_request. simpl. unfold register. simpl.
  rewrite (select_user_by_email_absent db _ Hfresh).
  unfold add_User. now rewrite (existsb_eqb_none _ _ _ Hfresh).
Qed.

Lemma add_new_post_commits {hashing : PasswordHashing}
    (env : environ) (db : Database) (s : session) (admin : User.t)
    (form : CreateBlogPostForm) :
  current_user db s = Return (LoggedIn admin) ->
  User.id admin = 1 ->
  (forall q, In q (blog_posts db) -> BlogPost.title q <> form_title form) ->
  full_dispatch_request env db s (NewPost (POST form true))
  = Result (redirect ep_get_all_posts None)
      {| users := users db;
         blog_posts :=
           blog_posts db ++
           [ BlogPost.Build (next_rowid (map BlogPost.id (blog_posts db))) (Some 1)
               (form_title form) (form_subtitle form) (datetime.strftime (today env))
               (form_body form) (form_img_url form) ];
         comments := comments db |}
      s.
Proof.
  intros Hcu Hadmin Hfresh.
  unfold full_dispatch_request. simpl. unfold add_new_post, admin_only.
  rewrite Hcu. simpl. rewrite Hadmin. simpl.
  unfold add_BlogPost. rewrite (existsb_eqb_none _ _ _ Hfresh). simpl.
  now rewrite Hadmin.
Qed.

Lemma delete_post_commits {hashing : PasswordHashing}
    (env : environ) (db : Database) (s : session) (admin : User.t)
    (post_id : Z) (p : BlogPost.t) :
  current_user db s = Return (LoggedIn admin) ->
  User.id admin = 1 ->
  get_or_404 BlogPost.id (blog_posts db) post_id = Return p ->
  full_dispatch_request env db s (Delete post_id)
  = Result (redirect ep_get_all_posts None) (delete_BlogPost db p) s.
Proof.
  intros Hcu Hadmin Hget.
  unfold full_dispatch_request. simpl. unfold delete_post, admin_only.
  rewrite Hcu. simpl. rewrite Hadmin. simpl. now rewrite Hget.
Qed.

Lemma find_app_skip {A : Type} (f : A -> bool) (l more : list A) :
  (forall a, In a l -> f a = false) -> find f (l ++ more) = find f more.
Proof.
  induction l as [|a l IH]; simpl; intros Hnone; [reflexivity|].
  rewrite (Hnone a (or_introl eq_refl)). apply IH. intros b Hb. apply Hnone. now right.
Qed.

Lemma select_user_by_email_new (db : Database) (u : User.t)
    (posts : list BlogPost.t) (cs : list Comment.t) :
  (forall v, In v (users db) -> User.email v <> User.email u) ->
  select_user_by_email
    {| users := users db ++ [u]; blog_posts := posts; comments := cs |}
    (User.email u)
  = Some u.
Proof.
  intros Hfresh. unfold select_user_by_email. cbn [users].
  rewrite find_app_skip.
  - simpl. now rewrite String.eqb_refl.
  - intros v Hv. apply String.eqb_neq. now apply Hfresh.
Qed.

(** X11.  After the administrator stores a post with a fresh title,
    the home page lists the posts that were there, in their order,
    followed by the new post. *)
Theorem add_new_post_then_get_all_posts {hashing : PasswordHashing}
    (env env' : environ) (db : Database) (s : session) (admin : User.t)
    (form : CreateBlogPostForm) :
  current_user db s = Return (LoggedIn admin) ->
  User.id admin = 1 ->
  (forall q, In q (blog_posts db) -> BlogPost.title q <> form_title form) ->
  resp (full_dispatch_request env'
          (db_after (full_dispatch_request env db s (NewPost (POST form true))))
          (session_after (full_dispatch_request env db s (NewPost (POST form true))))
          Home)
  = rendered "index.html"
      (all_posts
         (blog_posts db ++
          [ BlogPost.Build (next_rowid (map BlogPost.id (blog_posts db))) (Some 1)
              (form_title form) (form_subtitle form) (datetime.strftime (today env))
              (form_body form) (form_img_url form) ])).
Proof.
  intros Hcu Hadmin Hfresh.
  rewrite (add_new_post_commits env db s admin form Hcu Hadmin Hfresh).
  cbn [db_after session_after].
  unfold full_dispatch_request. simpl. unfold get_all_posts, render_template.
  change (current_user _ s) with (current_user db s).
  now rewrite Hcu.
Qed.

Lemma add_new_post_then_get_all_posts_witness :
  resp (full_dispatch_request (hashing := Demo.hashing) Demo.env
          (db_after (full_dispatch_request (hashing := Demo.hashing) Demo.env
                       Demo.blog (Some 1)
                       (NewPost (POST (Build_CreateBlogPostForm "T" "S" "U" "B") true))))
          (session_after (full_dispatch_request (hashing := Demo.hashing) Demo.env
                            Demo.blog (Some 1)
                            (NewPost (POST (Build_CreateBlogPostForm "T" "S" "U" "B")
                                       true))))
          Home)
  = rendered "index.html"
      (all_posts
         [ Demo.hello_post; Demo.world_post;
           BlogPost.Build 3 (Some 1) "T" "S" "June 03, 2025" "B" "U" ]).
Proof.
  apply (add_new_post_then_get_all_posts (hashing := Demo.hashing) Demo.env Demo.env
           Demo.blog (Some 1) Demo.admin (Build_CreateBlogPostForm "T" "S" "U" "B")).
  - reflexivity.
  - reflexivity.
  - simpl. intros q [<-|[<-|[]]]; discriminate.
Defined.

(** X12.  After a registration with a fresh email, a login with that
    email, from any browser, succeeds exactly when the submitted
    password verifies against the hash that was stored for the
    registered password; otherwise the "password incorrect" message is
    flashed.  Either way nothing is written. *)
Theorem register_then_login {hashing : PasswordHashing}
    (env env' : environ) (db : Database) (s s' : session)
    (form : RegistrationForm) (pw : string) :
  (forall u, In u (users db) -> User.email u <> reg_email form) ->
  full_dispatch_request env'
    (db_after (full_dispatch_request env db s (Register (POST form true)))) s'
    (Login (POST (Build_LoginForm (reg_email form) pw) true))
  = if check_password_hash
         (generate_password_hash (reg_password form) "pbkdf2:sha256" (salt env)) pw
    then Result (redirect ep_get_all_posts None)
           (db_after (full_dispatch_request env db s (Register (POST form true))))
           (Some (next_rowid (map User.id (users db))))
    else Result (redirect ep_login (Some "Password incorrect, please try again."))
           (db_after (full_dispatch_request env db s (Register (POST form true))))
           s'.
Proof.
  intros Hfresh. rewrite (register_commits env db s form Hfresh).
  cbn [db_after].
  set (new_user := User.Build (next_rowid (map User.id (users db))) (reg_email form)
                     (generate_password_hash (reg_password form) "pbkdf2:sha256"
                        (salt env))
                     (reg_name form)).
  unfold full_dispatch_request. simpl. unfold login. simpl.
  rewrite (select_user_by_email_new db new_user _ _ Hfresh). simpl.
  now destruct (check_password_hash _ pw).
Qed.

Lemma register_then_login_witness :
  full_dispatch_request (hashing := Demo.hashing) Demo.env
    (db_after (full_dispatch_request (hashing := Demo.hashing) Demo.env Demo.blog
                 None (Register (POST Demo.reader_form true))))
    None (Login (POST (Build_LoginForm "a@x.com" "hunter2") true))
  = Result (redirect ep_get_all_posts None) Demo.blog_with_reader (Some 2).
Proof.
  apply (register_then_login (hashing := Demo.hashing) Demo.env Demo.env Demo.blog
           None None Demo.reader_form "hunter2").
  simpl. intros u [<-|[]]. discriminate.
Defined.

(** X13.  After a registration with a fresh email, registering again
    with the same email, whatever the password, the name and the
    browser, is answered with the "already signed up" message and a
    redirect to the login page; the second request writes nothing and
    logs nobody in. *)
Theorem register_twice {hashing : PasswordHashing}
    (env env' : environ) (db : Database) (s s' : session)
    (form : RegistrationForm) (pw' name' : string) :
  (forall u, In u (users db) -> User.email u <> reg_email form) ->
  full_dispatch_request env'
    (db_after (full_dispatch_request env db s (Register (POST form true)))) s'
    (Register (POST (Build_RegistrationForm (reg_email form) pw' name') true))
  = Result
      (redirect ep_login
         (Some "You've already signed up with that email, log in instead!"))
      (db_after (full_dispatch_request env db s (Register (POST form true)))) s'.
Proof.
  intros Hfresh. rewrite (register_commits env db s form Hfresh).
  cbn [db_after].
  set (new_user := User.Build (next_rowid (map User.id (users db))) (reg_email form)
                     (generate_password_hash (reg_password form) "pbkdf2:sha256"
                        (salt env))
                     (reg_name form)).
  unfold full_dispatch_request. simpl. unfold register. simpl.
  now rewrite (select_user_by_email_new db new_user _ _ Hfresh).
Qed.

Lemma register_twice_witness :
  full_dispatch_request (hashing := Demo.hashing) Demo.env
    (db_after (full_dispatch_request (hashing := Demo.hashing) Demo.env Demo.blog
                 None (Register (POST Demo.reader_form true))))
    (Some 1) (Register (POST (Build_RegistrationForm "a@x.com" "other" "B") true))
  = Result
      (redirect ep_login
         (Some "You've already signed up with that email, log in instead!"))
      Demo.blog_with_reader (Some 1).
Proof.
  apply (register_twice (hashing := Demo.hashing) Demo.env Demo.env Demo.blog
           None (Some 1) Demo.reader_form "other" "B").
  simpl. intros u [<-|[]]. discriminate.
Defined.

(** ** Deleting exactly one post *)

Lemma filter_other_ids_all (pid : Z) (l : list BlogPost.t) :
  ~ In pid (map BlogPost.id l) ->
  filter (fun q => negb (BlogPost.id q =? pid)) l = l.
Proof.
  induction l as [|a l IH]; simpl; intros Habs; [reflexivity|].
  destruct (BlogPost.id a =? pid) eqn:Ha.
  - apply Z.eqb_eq in Ha. tauto.
  - simpl. f_equal. apply IH. tauto.
Qed.

Lemma filter_other_ids_length (p : BlogPost.t) (l : list BlogPost.t) :
  NoDup (map BlogPost.id l) -> In p l ->
  (List.length (filter (fun q => negb (BlogPost.id q =? BlogPost.id p)%Z) l) + 1
   = List.length l)%nat.
Proof.
  induction l as [|a l IH]; simpl; intros Hnd Hin; [contradiction|].
  inversion Hnd as [|? ? Ha Hnd']; subst.
  destruct (BlogPost.id a =? BlogPost.id p) eqn:Hap; simpl.
  - apply Z.eqb_eq in Hap. rewrite filter_other_ids_all; [lia|].
    now rewrite <- Hap.
  - destruct Hin as [->|Hin]; [now rewrite Z.eqb_refl in Hap|].
    specialize (IH Hnd' Hin). lia.
Qed.

(** X14.  In a reachable database, when the administrator deletes an
    existing post (its id one SQLite can hold) the table loses exactly
    that row: it is one row shorter, the rows left are the other posts,
    unchanged, and [users] is as it was. *)
Theorem delete_post_removes_one {hashing : PasswordHashing}
    (env : environ) (db : Database) (s : session) (admin : User.t)
    (p : BlogPost.t) :
  reachable db ->
  current_user db s = Return (LoggedIn admin) ->
  User.id admin = 1 ->
  In p (blog_posts db) ->
  BlogPost.id p <= sqlite_max_integer ->
  (List.length (blog_posts (db_after (full_dispatch_request env db s
                                   (Delete (BlogPost.id p))))) + 1
   = List.length (blog_posts db))%nat /\
  (forall q,
     In q (blog_posts (db_after (full_dispatch_request env db s
                                   (Delete (BlogPost.id p)))))
     <-> In q (blog_posts db) /\ q <> p) /\
  users (db_after (full_dispatch_request env db s (Delete (BlogPost.id p))))
  = users db.
Proof.
  intros Hreach Hcu Hadmin Hp Hrange. apply reachable_consistent in Hreach.
  destruct Hreach as [_ Hpk _ _ _ _ _ _].
  rewrite (delete_post_commits env db s admin (BlogPost.id p) p Hcu Hadmin
             (get_or_404_present BlogPost.id _ p Hrange Hpk Hp)).
  cbn [db_after delete_BlogPost blog_posts users].
  split; [now apply filter_other_ids_length|]. split; [|reflexivity].
  intros q. rewrite filter_In. split.
  - intros [Hq Hne]. split; [assumption|].
    apply negb_true_iff, Z.eqb_neq in Hne. congruence.
  - intros [Hq Hne]. split; [assumption|].
    apply negb_true_iff, Z.eqb_neq. intros Hid. apply Hne.
    eapply NoDup_map_inj; eauto.
Qed.

Lemma delete_post_removes_one_witness :
  (List.length (blog_posts (db_after (full_dispatch_request (hashing := Demo.hashing)
                                   Demo.env Demo.blog (Some 1%Z) (Delete 1%Z)))) + 1
   = List.length (blog_posts Demo.blog))%nat /\
  (forall q,
     In q (blog_posts (db_after (full_dispatch_request (hashing := Demo.hashing)
                                   Demo.env Demo.blog (Some 1) (Delete 1))))
     <-> In q (blog_posts Demo.blog) /\ q <> Demo.hello_post) /\
  users (db_after (full_dispatch_request (hashing := Demo.hashing) Demo.env
                     Demo.blog (Some 1) (Delete 1)))
  = users Demo.blog.
Proof.
  apply (delete_post_removes_one (hashing := Demo.hashing) Demo.env Demo.blog
           (Some 1) Demo.admin Demo.hello_post).
  - apply Demo.blog_reachable.
  - reflexivity.
  - reflexivity.
  - simpl. tauto.
  - vm_compute. discriminate.
Defined.

(** ** Who is the administrator *)

Lemma reachable_first_user {hashing : PasswordHashing} (db : Database) :
  reachable db -> users db = [] \/ In 1 (map User.id (users db)).
Proof.
  induction 1 as [|db env s r _ IH].
  - now left.
  - destruct (full_dispatch_request_users env db s r)
      as [more [Husers [->|[u [-> Hid]]]]]; rewrite Husers.
    + now rewrite app_nil_r.
    + right. rewrite map_app. apply in_or_app.
      destruct IH as [Hempty|Hone]; [|now left].
      right. simpl. left. rewrite Hid, Hempty. reflexivity.
Qed.

(** X15.  The first user to register gets id 1 and with it the
    administrator routes: after a registration into an empty [users]
    table the session is that of user 1, and [/new-post] shows the form
    instead of refusing. *)
Theorem first_user_is_administrator {hashing : PasswordHashing}
    (env env' : environ) (db : Database) (s : session) (form : RegistrationForm) :
  users db = [] ->
  session_after (full_dispatch_request env db s (Register (POST form true)))
  = Some 1 /\
  resp (full_dispatch_request env'
          (db_after (full_dispatch_request env db s (Register (POST form true))))
          (session_after (full_dispatch_request env db s (Register (POST form true))))
          (NewPost GET))
  = rendered "make-post.html" no_context.
Proof.
  intros Hempty.
  rewrite (register_commits env db s form).
  - cbn [db_after session_after]. rewrite Hempty. split; reflexivity.
  - rewrite Hempty. intros u [].
Qed.

Lemma first_user_is_administrator_witness :
  session_after (full_dispatch_request (hashing := Demo.hashing) Demo.env create_all
                   None (Register (POST Demo.reader_form true)))
  = Some 1.
Proof.
  apply (first_user_is_administrator (hashing := Demo.hashing) Demo.env Demo.env
           create_all None Demo.reader_form).
  reflexivity.
Defined.

(** X16.  In a reachable database that already has a user, whoever
    registers next gets an id other than 1: logged in by the
    registration, that user is refused with 403 on both administrator
    routes. *)
Theorem later_users_are_not_administrators {hashing : PasswordHashing}
    (env env' : environ) (db : Database) (s : session) (form : RegistrationForm) :
  reachable db ->
  users db <> [] ->
  (forall u, In u (users db) -> User.email u <> reg_email form) ->
  session_after (full_dispatch_request env db s (Register (POST form true)))
  <> Some 1 /\
  (forall f,
     resp (full_dispatch_request env'
             (db_after (full_dispatch_request env db s (Register (POST form true))))
             (session_after (full_dispatch_request env db s
                               (Register (POST form true))))
             (NewPost f))
     = error_page (HTTPException 403)) /\
  (forall post_id,
     resp (full_dispatch_request env'
             (db_after (full_dispatch_request env db s (Register (POST form true))))
             (session_after (full_dispatch_request env db s
                               (Register (POST form true))))
             (Delete post_id))
     = error_page (HTTPException 403)).
Proof.
  intros Hreach Hnonempty Hfresh.
  assert (Hnext : next_rowid (map User.id (users db)) <> 1).
  { destruct (reachable_first_user db Hreach) as [Hempty|Hone]; [contradiction|].
    apply fold_max_upper in Hone. unfold next_rowid. lia. }
  rewrite (register_commits env db s form Hfresh). cbn [db_after session_after].
  set (new_user := User.Build (next_rowid (map User.id (users db))) (reg_email form)
                     (generate_password_hash (reg_password form) "pbkdf2:sha256"
                        (salt env))
                     (reg_name form)).
  set (db' := {| users := users db ++ [new_user];
                 blog_posts := blog_posts db;
                 comments := comments db |}).
  assert (Hcu : current_user db' (Some (next_rowid (map User.id (users db))))
                = Return (LoggedIn new_user)).
  { simpl. unfold load_user. cbn [users db'].
    change (next_rowid (map User.id (users db))) with (User.id new_user).
    rewrite (select_or_404_snoc_fresh User.id (users db) new_user); [reflexivity|].
    apply next_rowid_fresh. }
  split; [congruence|]. split.
  - intros f.
    rewrite (admin_only_forbids_other_users env' db' _ new_user (NewPost f) Hcu Hnext);
      eauto.
  - intros post_id.
    rewrite (admin_only_forbids_other_users env' db' _ new_user (Delete post_id)
               Hcu Hnext); eauto.
Qed.

Lemma later_users_are_not_administrators_witness :
  resp (full_dispatch_request (hashing := Demo.hashing) Demo.env
          (db_after (full_dispatch_request (hashing := Demo.hashing) Demo.env
                       Demo.blog None (Register (POST Demo.reader_form true))))
          (session_after (full_dispatch_request (hashing := Demo.hashing) Demo.env
                            Demo.blog None (Register (POST Demo.reader_form true))))
          (Delete 1))
  = error_page (HTTPException 403).
Proof.
  apply (later_users_are_not_administrators (hashing := Demo.hashing) Demo.env
           Demo.env Demo.blog None Demo.reader_form).
  - apply Demo.blog_reachable.
  - simpl. discriminate.
  - simpl. intros u [<-|[]]. discriminate.
Defined.

(** ** Edits that are refused *)

(** X17.  In a reachable database, a logged-in caller who submits the
    edit form of an existing post (its id one SQLite can hold) with the
    title of another post is answered with the unhandled integrity error
    of the UNIQUE constraint (status 500), and nothing is written. *)
Theorem edit_post_duplicate_title {hashing : PasswordHashing}
    (env : environ) (db : Database) (s : session) (u : User.t)
    (p q : BlogPost.t) (form : CreateBlogPostForm) :
  reachable db ->
  current_user db s = Return (LoggedIn u) ->
  In p (blog_posts db) ->
  BlogPost.id p <= sqlite_max_integer ->
  In q (blog_posts db) ->
  BlogPost.id q <> BlogPost.id p ->
  BlogPost.title q = form_title form ->
  full_dispatch_request env db s (EditPost (BlogPost.id p) (POST form true))
  = Result (error_page (IntegrityError "blog_posts.title")) db s /\
  status_code (resp (full_dispatch_request env db s
                       (EditPost (BlogPost.id p) (POST form true)))) = 500.
Proof.
  intros Hreach Hcu Hp Hrange Hq Hne Htitle. apply reachable_consistent in Hreach.
  destruct Hreach as [_ Hpk _ _ _ _ _ _].
  assert (Hres : full_dispatch_request env db s
                   (EditPost (BlogPost.id p) (POST form true))
                 = Result (error_page (IntegrityError "blog_posts.title")) db s).
  { unfold full_dispatch_request. simpl. unfold edit_post.
    rewrite (get_or_404_present BlogPost.id _ p Hrange Hpk Hp). cbn [bind].
    cbn [validate_on_submit].
    rewrite (autoflush_title_taken db p q _ Hq Hne Htitle).
    apply current_user_LoggedIn in Hcu. destruct Hcu as [_ ->]. reflexivity. }
  rewrite Hres. split; reflexivity.
Qed.

Lemma edit_post_duplicate_title_witness :
  full_dispatch_request (hashing := Demo.hashing) Demo.env Demo.blog_with_reader
    (Some 2) (EditPost 1 (POST Demo.world true))
  = Result (error_page (IntegrityError "blog_posts.title")) Demo.blog_with_reader
      (Some 2).
Proof.
  apply (edit_post_duplicate_title (hashing := Demo.hashing) Demo.env
           Demo.blog_with_reader (Some 2) Demo.reader Demo.hello_post Demo.world_post
           Demo.world).
  - apply Demo.blog_with_reader_reachable.
  - reflexivity.
  - simpl. tauto.
  - vm_compute. discriminate.
  - simpl. tauto.
  - simpl. lia.
  - reflexivity.
Defined.

(** X18.  An anonymous caller who submits a validated edit form of an
    existing post is answered with a server error (status 500): the
    assignment [post.author = current_user] raises on the anonymous
    object.  Nothing is written; an anonymous GET of the same route
    shows the form. *)
Theorem edit_post_anonymous {hashing : PasswordHashing}
    (env : environ) (db : Database) (post_id : Z) (p : BlogPost.t)
    (form : CreateBlogPostForm) :
  get_or_404 BlogPost.id (blog_posts db) post_id = Return p ->
  full_dispatch_request env db None (EditPost post_id (POST form true))
  = Result (error_page (AttributeError "AnonymousUserMixin" "_sa_instance_state"))
      db None /\
  status_code (resp (full_dispatch_request env db None
                       (EditPost post_id (POST form true)))) = 500 /\
  full_dispatch_request env db None (EditPost post_id GET)
  = Result (rendered "make-post.html" is_edit) db None.
Proof.
  intros Hget. unfold full_dispatch_request. simpl. unfold edit_post.
  rewrite Hget. simpl. repeat split.
Qed.

Lemma edit_post_anonymous_witness :
  full_dispatch_request (hashing := Demo.hashing) Demo.env Demo.blog None
    (EditPost 2 (POST Demo.hello true))
  = Result (error_page (AttributeError "AnonymousUserMixin" "_sa_instance_state"))
      Demo.blog None.
Proof.
  apply (edit_post_anonymous (hashing := Demo.hashing) Demo.env Demo.blog 2
           Demo.world_post Demo.hello).
  reflexivity.
Defined.

(** ** Post ids SQLite cannot hold *)

(** X19.  A post id above the largest SQLite integer (2^63 - 1) makes
    the lookup of the post raise [OverflowError]: [/post/<id>] and
    [/edit-post/<id>] answer status 500 for every caller and form, and
    so does [/delete/<id>] for the administrator (other callers are
    stopped by the guard first); nothing is written. *)
Theorem post_id_overflow {hashing : PasswordHashing}
    (env : environ) (db : Database) (s : session) (post_id : Z) :
  sqlite_max_integer < post_id ->
  (forall f,
     full_dispatch_request env db s (ShowPost post_id f)
     = Result (error_page OverflowError) db s) /\
  (forall f,
     full_dispatch_request env db s (EditPost post_id f)
     = Result (error_page OverflowError) db s) /\
  (forall admin,
     current_user db s = Return (LoggedIn admin) -> User.id admin = 1 ->
     full_dispatch_request env db s (Delete post_id)
     = Result (error_page OverflowError) db s) /\
  status_code (error_page OverflowError) = 500.
Proof.
  intros Hbig. split; [|split; [|split; [|reflexivity]]].
  - intros f. unfold full_dispatch_request. simpl. unfold show_post.
    now rewrite (get_or_404_overflow BlogPost.id _ _ Hbig).
  - intros f. unfold full_dispatch_request. simpl. unfold edit_post.
    now rewrite (get_or_404_overflow BlogPost.id _ _ Hbig).
  - intros admin Hcu Hadmin. unfold full_dispatch_request. simpl.
    unfold delete_post, admin_only. rewrite Hcu. simpl. rewrite Hadmin. simpl.
    now rewrite (get_or_404_overflow BlogPost.id _ _ Hbig).
Qed.

Lemma post_id_overflow_witness :
  full_dispatch_request (hashing := Demo.hashing) Demo.env Demo.blog None
    (ShowPost 9223372036854775808 GET)
  = Result (error_page OverflowError) Demo.blog None.
Proof.
  apply (post_id_overflow (hashing := Demo.hashing) Demo.env Demo.blog None
           9223372036854775808).
  vm_compute. reflexivity.
Defined.
